(** * uplink-moira-bot: the Moira adapter and the Matrix command handler

    A shallow embedding of [src/moira.ts] (the SOAP adapter [Moira]) and of
    the two revisions of the bot's entry point (the greeting-only handler
    and the handler that also answers [!myclasses] and [!myname]).

    Conventions.
    - A JavaScript string is a [string]: the bytes of its UTF-8 encoding.
      Every separator, prefix and pattern of this program is ASCII, so
      searching, splitting and prefix tests agree with the UTF-16 ones.
    - A promise that resolves is [Normal], a promise that rejects (or a
      synchronous [throw]) is [Throw]; [await] is the bind of that monad.
    - [undefined] where TypeScript declares a type is [None]. *)

From Stdlib Require Import List String Ascii Bool ZArith Lia.
Import ListNotations.
Open Scope string_scope.

(** ** The JavaScript runtime the program relies on *)
Module JS.

(** Values of type [any]: the chat event handed to the handler and the
    argument object of a remote call.  No operation of this program
    inspects a number. *)
#[warnings="-register-all"]
Inductive value : Type :=
| Undefined
| Null
| Bool (b : bool)
| Num (n : Z)
| Str (s : string)
| Arr (items : list value)
| Obj (fields : list (string * value)).

(** What can be thrown: the built-in [TypeError] (property access on
    [null]/[undefined], call of a non-function), the adapter's own
    [NoAPIResult], and whatever an external library rejects with. *)
Inductive exn : Type :=
| TypeError
| NoAPIResult (message : string)
| External (reason : string).

Inductive completion (A : Type) : Type :=
| Normal (a : A)
| Throw (e : exn).
Arguments Normal {A} a.
Arguments Throw {A} e.

Definition bind {A B} (c : completion A) (k : A -> completion B) : completion B :=
  match c with
  | Normal a => k a
  | Throw e => Throw e
  end.

(** [o[key]] for a key that is a plain data property name (neither an
    array index nor a built-in such as [length]). *)
Fixpoint assoc {V} (key : string) (fields : list (string * V)) : option V :=
  match fields with
  | [] => None
  | (k, v) :: rest => if String.eqb k key then Some v else assoc key rest
  end.

Definition get (o : value) (key : string) : completion value :=
  match o with
  | Undefined | Null => Throw TypeError
  | Obj fields =>
      match assoc key fields with
      | Some v => Normal v
      | None => Normal Undefined
      end
  | _ => Normal Undefined
  end.

(** [v == null] *)
Definition nullish (v : value) : bool :=
  match v with
  | Undefined | Null => true
  | _ => false
  end.

(** [v === s] for a string [s]. *)
Definition strictEqualsString (v : value) (s : string) : bool :=
  match v with
  | Str s' => String.eqb s' s
  | _ => false
  end.

(** [s.startsWith(searchString)] *)
Definition startsWith (s searchString : string) : bool :=
  String.prefix searchString s.

(** [s.includes(searchString)] *)
Fixpoint includes (s searchString : string) : bool :=
  String.prefix searchString s
  || match s with
     | EmptyString => false
     | String _ rest => includes rest searchString
     end.

(** [s.split(separator)] for a one-character separator; the result
    always has at least one field. *)
Fixpoint split (s : string) (separator : ascii) : list string :=
  match s with
  | EmptyString => [EmptyString]
  | String c rest =>
      if Ascii.eqb c separator then EmptyString :: split rest separator
      else match split rest separator with
           | field :: fields => String c field :: fields
           | [] => [String c EmptyString]
           end
  end.

Fixpoint drop (n : nat) (s : string) : string :=
  match n, s with
  | O, _ => s
  | S n', String _ rest => drop n' rest
  | S _, EmptyString => EmptyString
  end.

(** [s.replace(pattern, replacement)] with a string pattern: only the
    first occurrence is replaced. *)
Fixpoint replace (s pattern replacement : string) : string :=
  if String.prefix pattern s then replacement ++ drop (String.length pattern) s
  else match s with
       | EmptyString => EmptyString
       | String c rest => String c (replace rest pattern replacement)
       end.

(** [items.join(separator)] *)
Definition join (items : list string) (separator : string) : string :=
  String.concat separator items.

(** *** The regular expression [/@(.+):.+/]

    [.] matches any character but a line terminator: LF, CR, U+2028 and
    U+2029 (the last two are E2 80 A8 and E2 80 A9 in UTF-8). *)
Definition LF : ascii := ascii_of_nat 10.
Definition CR : ascii := ascii_of_nat 13.

Definition lineTerminatorAt (s : string) : bool :=
  match s with
  | EmptyString => false
  | String c rest =>
      Ascii.eqb c LF || Ascii.eqb c CR
      || (Ascii.eqb c (ascii_of_nat 226)
          && match rest with
             | String c1 (String c2 _) =>
                 Ascii.eqb c1 (ascii_of_nat 128)
                 && (Ascii.eqb c2 (ascii_of_nat 168) || Ascii.eqb c2 (ascii_of_nat 169))
             | _ => false
             end)
  end.

(** The longest prefix of [s] that [.*] can consume. *)
Fixpoint dotRun (s : string) : string :=
  match s with
  | EmptyString => EmptyString
  | String c rest =>
      if lineTerminatorAt s then EmptyString else String c (dotRun rest)
  end.

(** Within a run [r] of [.]-characters, the longest [g] such that
    [r = g ++ ":" ++ d] with [d] not empty: where the greedy [.*]
    ends up after backtracking so that [:.+] can follow. *)
Fixpoint lastColon (r : string) : option string :=
  match r with
  | EmptyString => None
  | String c rest =>
      match lastColon rest with
      | Some g => Some (String c g)
      | None =>
          match rest with
          | EmptyString => None
          | String _ _ => if Ascii.eqb c ":" then Some EmptyString else None
          end
      end
  end.

(** The pattern tried at the first character of [s]: capture group 1. *)
Definition matchHere (s : string) : option string :=
  match s with
  | String c rest =>
      if Ascii.eqb c "@" then
        match dotRun rest with
        | String c1 r => option_map (String c1) (lastColon r)
        | EmptyString => None
        end
      else None
  | EmptyString => None
  end.

(** [s.match(/@(.+):.+/)]: the leftmost position where the pattern
    matches; [None] is [null]. *)
Fixpoint matchLocalpart (s : string) : option string :=
  match matchHere s with
  | Some g => Some g
  | None =>
      match s with
      | EmptyString => None
      | String _ rest => matchLocalpart rest
      end
  end.

End JS.

Import JS.

Notation "x <- c ;; k" := (JS.bind c (fun x => k))
  (at level 61, c at next level, right associativity).


(** ** [src/moira.ts]: the directory adapter *)
Module Moira.

Inductive MemberType : Type := USER | LIST | STRING | KERBEROS.

(** [a == b] on member types: exact comparison of the tags. *)
Definition MemberType_eqb (a b : MemberType) : bool :=
  match a, b with
  | USER, USER | LIST, LIST | STRING, STRING | KERBEROS, KERBEROS => true
  | _, _ => false
  end.

Record ListMember : Type := {
  list_ : string;
  member : string;
  type : MemberType
}.

Module ListAttributes.
Record t : Type := {
  aceName : string;
  aceType : MemberType;
  activeList : bool;
  description : string;
  gid : string;
  group : bool;
  hiddenList : bool;
  listName : string;
  mailList : bool;
  mailman : bool;
  mailmanServer : string;
  memaceName : string;
  memaceType : MemberType;
  modby : string;
  modtime : string;
  modwith : string;
  nfsgroup : bool;
  pacsList : bool;
  publicList : bool
}.
End ListAttributes.

Module UserAttributes.
Record t : Type := {
  comment : string;
  created : string;
  creator : string;
  first : string;
  last : string;
  middle : string;
  mitid : string;
  modby : string;
  modtime : string;
  modwith : string;
  secure : string;
  shell : string;
  signature : string;
  state : string;
  uclass : string;
  uid : string;
  userName : string;
  winconsoleshell : string;
  winhomedir : string;
  winprofiledir : string
}.
End UserAttributes.

(** The type the callers of [apiCall] declare for the [<method>Return]
    field of each operation. *)
Definition Returned (method : string) : Type :=
  if String.eqb method "getListMembership" then list ListMember
  else if String.eqb method "getListAttributes" then list ListAttributes.t
  else if String.eqb method "getUserAttributes" then list UserAttributes.t
  else if String.eqb method "getUserLists" then list string
  else value.

(** [result[0]], the top-level payload of a response: [undefined], [null]
    or an object with its fields. *)
Inductive payload (T : Type) : Type :=
| PUndefined
| PNull
| PObject (fields : list (string * T)).
Arguments PUndefined {T}.
Arguments PNull {T}.
Arguments PObject {T} fields.

(** [this.#client]: for each operation, the promise-returning stub
    [client[method + 'Async']]; the promise resolves to an array of which
    the program reads element 0 only. *)
Definition soapClient : Type :=
  forall method : string, list (string * value) -> completion (payload (Returned method)).

Definition apiCall (client : soapClient) (method : string) (args : list (string * value))
  : completion (option (Returned method)) :=
  result0 <- client method args ;;
  match result0 with
  | PUndefined | PNull => Throw (NoAPIResult (method ++ " didn't return anything!"))
  | PObject fields => Normal (assoc (method ++ "Return") fields)
  end.

Definition getMembersOfList (client : soapClient) (listName : string) (recursiveSearch : bool)
  : completion (option (list ListMember)) :=
  apiCall client "getListMembership"
    [("listName", Str listName);
     ("recursiveSearch", Bool recursiveSearch);
     ("maxReturnCount", Num 0)].

(** [allMembers.filter((member) => member.type == type).map((member) => member.member)] *)
Definition filterByType (allMembers : list ListMember) (type' : MemberType) : list string :=
  map member (filter (fun member' => MemberType_eqb (type member') type') allMembers).

(** [extension == literal], where [extension] is [undefined] when the
    split produced a single field. *)
Definition looseEqualsString (extension : option string) (literal : string) : bool :=
  match extension with
  | Some s => String.eqb s literal
  | None => false
  end.

(** One iteration of the loop over the KERBEROS members. *)
Definition visitKerberos (athenaUsers : list string) (user : string) : list string :=
  if includes user "/" then
    match split user "/" with
    | kerb :: rest =>
        let extension := hd_error rest in
        if looseEqualsString extension "root@ATHENA.MIT.EDU" then (athenaUsers ++ [kerb])%list
        else athenaUsers
    | [] => athenaUsers
    end
  else
    match split user "@" with
    | kerb :: rest =>
        let extension := hd_error rest in
        if looseEqualsString extension "ATHENA.MIT.EDU" || looseEqualsString extension "MIT.EDU"
        then (athenaUsers ++ [kerb])%list
        else athenaUsers
    | [] => athenaUsers
    end.

(** The body of [getMITMembersOfList] once [allMembers] is there. *)
Definition mitMembers (allMembers : list ListMember) : list string :=
  let kerbs := filterByType allMembers USER in
  let athenaUsers := fold_left visitKerberos (filterByType allMembers KERBEROS) [] in
  (kerbs ++ athenaUsers)%list.

Definition getMITMembersOfList (client : soapClient) (listName : string)
  : completion (list string) :=
  allMembers <- getMembersOfList client listName true ;;
  match allMembers with
  | None => Throw TypeError
  | Some allMembers => Normal (mitMembers allMembers)
  end.

Definition getListAttributes (client : soapClient) (listName : string)
  : completion (option ListAttributes.t) :=
  returned <- apiCall client "getListAttributes" [("listName", Str listName)] ;;
  match returned with
  | None => Throw TypeError
  | Some records => Normal (nth_error records 0)
  end.

Definition getUserAttributes (client : soapClient) (kerb : string)
  : completion (option UserAttributes.t) :=
  returned <- apiCall client "getUserAttributes" [("memberID", Str kerb)] ;;
  match returned with
  | None => Throw TypeError
  | Some records => Normal (nth_error records 0)
  end.

(** The template literal and the [replace] of [getUserName]. *)
Definition fullName (attributes : UserAttributes.t) : string :=
  replace (UserAttributes.first attributes ++ " " ++ UserAttributes.middle attributes
           ++ " " ++ UserAttributes.last attributes) "  " " ".

Definition getUserName (client : soapClient) (kerb : string) : completion string :=
  attributes <- getUserAttributes client kerb ;;
  match attributes with
  | None => Throw TypeError
  | Some attributes => Normal (fullName attributes)
  end.

Definition getUserLists (client : soapClient) (kerb : string)
  : completion (option (list string)) :=
  apiCall client "getUserLists" [("memberID", Str kerb); ("memberType", Str "USER")].

Definition getUserClasses (client : soapClient) (kerb : string) : completion (list string) :=
  lists <- getUserLists client kerb ;;
  match lists with
  | None => Throw TypeError
  | Some lists => Normal (filter (fun name => startsWith name "canvas") lists)
  end.

End Moira.

(** ** The chat side shared by both revisions of the entry point *)
Module Chat.

(** A call of [client.replyNotice(roomId, event, text)]. *)
Record notice : Type := {
  room : string;
  inReplyTo : value;
  text : string
}.

(** The [MatrixClient] as far as the handler uses it. *)
Record client : Type := {
  getUserId : completion string;
  sendNotice : string -> value -> string -> completion unit
}.

(** An asynchronous computation of the handler: the notices it has sent,
    in order, and how it completed. *)
Definition task (A : Type) : Type := (list notice * completion A)%type.

Definition lift {A} (c : completion A) : task A := ([], c).

Definition andThen {A B} (t : task A) (k : A -> task B) : task B :=
  match t with
  | (sent, Normal a) => let (sent', c) := k a in ((sent ++ sent')%list, c)
  | (sent, Throw e) => (sent, Throw e)
  end.

Definition done : task unit := ([], Normal tt).

Definition replyNotice (c : client) (roomId : string) (event : value) (text' : string)
  : task unit :=
  ([{| room := roomId; inReplyTo := event; text := text' |}], sendNotice c roomId event text').

(** [event['content']?.['msgtype']] *)
Definition msgtypeOf (event : value) : completion value :=
  content <- get event "content" ;;
  if nullish content then Normal Undefined else get content "msgtype".

(** [event['content']['body']] *)
Definition bodyOf (event : value) : completion value :=
  content <- get event "content" ;;
  get content "body".

End Chat.

Import Chat.

Notation "x <~ t ;; k" := (Chat.andThen t (fun x => k))
  (at level 61, t at next level, right associativity).

(** ** The first revision of the entry point: only [!hello] *)
Module HelloBot.

Definition handleCommand (client : Chat.client) (roomId : string) (event : value)
  : task unit :=
  msgtype <~ lift (msgtypeOf event) ;;
  if negb (strictEqualsString msgtype "m.text") then done else
  sender <~ lift (get event "sender") ;;
  self <~ lift (getUserId client) ;;
  if strictEqualsString sender self then done else
  body <~ lift (bodyOf event) ;;
  match body with
  | Undefined | Null => done
  | Str body =>
      if negb (startsWith body "!hello") then done
      else replyNotice client roomId event "Hello world!"
  | _ => lift (Throw TypeError)
  end.

End HelloBot.

(** ** The entry point with the directory commands *)
Module MoiraBot.

Definition extractLocalpart (username : string) : completion string :=
  match matchLocalpart username with
  | Some groups => Normal groups
  | None => Throw TypeError
  end.

(** [classes.filter((name) => name.startsWith('canvas-2023'))] *)
Definition currentClasses (classes : list string) : list string :=
  filter (fun name => startsWith name "canvas-2023") classes.

Definition handleCommand (moira : Moira.soapClient) (client : Chat.client)
  (roomId : string) (event : value) : task unit :=
  msgtype <~ lift (msgtypeOf event) ;;
  if negb (strictEqualsString msgtype "m.text") then done else
  sender <~ lift (get event "sender") ;;
  self <~ lift (getUserId client) ;;
  if strictEqualsString sender self then done else
  body <~ lift (bodyOf event) ;;
  username <~ lift (match sender with
                    | Str sender => extractLocalpart sender
                    | _ => Throw TypeError
                    end) ;;
  match body with
  | Str body =>
      if startsWith body "!hello" then
        replyNotice client roomId event "Hello world!"
      else if startsWith body "!myclasses" then
        classes <~ lift (Moira.getUserClasses moira username) ;;
        replyNotice client roomId event (join (currentClasses classes) (String LF ""))
      else if startsWith body "!myname" then
        name <~ lift (Moira.getUserName moira username) ;;
        replyNotice client roomId event name
      else done
  | _ => lift (Throw TypeError)
  end.

End MoiraBot.

(** ** Vocabulary of the properties *)
Module Spec.

Import Moira.

(** The kerb the loop of [getMITMembersOfList] pushes for one KERBEROS
    member, if it pushes one. *)
Definition athenaKerb (user : string) : option string :=
  hd_error (visitKerberos [] user).

Definition kerbList (user : string) : list string :=
  match athenaKerb user with
  | Some kerb => [kerb]
  | None => []
  end.

Definition isUser (m : ListMember) : bool :=
  match type m with USER => true | _ => false end.

Definition isKerberos (m : ListMember) : bool :=
  match type m with KERBEROS => true | _ => false end.

(** A name that contains neither of the two separators of a principal. *)
Definition plainName (s : string) : bool :=
  negb (includes s "/") && negb (includes s "@").

(** The two realms the adapter knows. *)
Definition acceptedRealms : list string := ["ATHENA.MIT.EDU"; "MIT.EDU"].

(** The specification's reading of an accepted KERBEROS member: either
    form, [kerb/root@REALM] or [kerb@REALM], with any of the accepted
    realms. *)
Definition specPrincipal (realms : list string) (user kerb : string) : Prop :=
  exists realm, In realm realms
    /\ (user = kerb ++ "/root@" ++ realm \/ user = kerb ++ "@" ++ realm).

Definition mkMember (ty : MemberType) (name : string) : ListMember :=
  {| list_ := ""; member := name; type := ty |}.

(** A user record with the three name fields given and the others empty. *)
Definition named (first' middle' last' : string) : UserAttributes.t :=
  {| UserAttributes.comment := ""; UserAttributes.created := "";
     UserAttributes.creator := ""; UserAttributes.first := first';
     UserAttributes.last := last'; UserAttributes.middle := middle';
     UserAttributes.mitid := ""; UserAttributes.modby := "";
     UserAttributes.modtime := ""; UserAttributes.modwith := "";
     UserAttributes.secure := ""; UserAttributes.shell := "";
     UserAttributes.signature := ""; UserAttributes.state := "";
     UserAttributes.uclass := ""; UserAttributes.uid := "";
     UserAttributes.userName := ""; UserAttributes.winconsoleshell := "";
     UserAttributes.winhomedir := ""; UserAttributes.winprofiledir := "" |}.

(** [result[0] == null] on a payload. *)
Definition absent {T} (p : payload T) : bool :=
  match p with
  | PObject _ => false
  | _ => true
  end.

(** A directory service that answers one operation with a fixed payload
    and every other operation with nothing. *)
Definition answering (method : string) (p : payload (Returned method)) : soapClient :=
  fun m _ =>
    match string_dec method m with
    | left e => Normal (eq_rect method (fun x => payload (Returned x)) p m e)
    | right _ => Normal PNull
    end.

(** A directory that answers the membership query with [members]. *)
Definition listing (members : list ListMember) : soapClient :=
  answering "getListMembership" (PObject [("getListMembershipReturn", members)]).

(** A directory that answers the query for a user's lists with [lists]. *)
Definition userListing (lists : list string) : soapClient :=
  answering "getUserLists" (PObject [("getUserListsReturn", lists)]).

(** A directory that answers the query for a user's attributes with the
    records [records]. *)
Definition userRecords (records : list UserAttributes.t) : soapClient :=
  answering "getUserAttributes" (PObject [("getUserAttributesReturn", records)]).

(** [s] holds an [@], then at least one character, a [:] and one more
    character, all on one line: what [/@(.+):.+/] looks for. *)
Definition matchable (s : string) : Prop :=
  exists pre t name c rest,
    s = pre ++ "@" ++ t /\ dotRun t = name ++ ":" ++ String c rest /\ name <> "".

(** An event [{ sender, content: { msgtype, body } }]. *)
Definition message (sender msgtype body : string) : value :=
  Obj [("sender", Str sender);
       ("content", Obj [("msgtype", Str msgtype); ("body", Str body)])].

(** A chat session whose own identifier is [self] and whose sends succeed. *)
Definition session (self : string) : Chat.client :=
  {| getUserId := Normal self; sendNotice := fun _ _ _ => Normal tt |}.

(** The two guards of the handler, for a message type tag [msgtype]:
    the event carries that tag and its sender is not the bot. *)
Definition answerable (msgtype : string) (client : Chat.client) (event : value) : Prop :=
  msgtypeOf event = Normal (Str msgtype)
  /\ exists sender self,
       get event "sender" = Normal sender
       /\ getUserId client = Normal self
       /\ strictEqualsString sender self = false.

(** [event] is a text message with body [body], received from [sender],
    who is not the bot. *)
Definition textFromOther (client : Chat.client) (event sender : value) (body : string) : Prop :=
  msgtypeOf event = Normal (Str "m.text")
  /\ get event "sender" = Normal sender
  /\ (exists self, getUserId client = Normal self /\ strictEqualsString sender self = false)
  /\ bodyOf event = Normal (Str body).

(** [tail] is empty or starts a further field after the separator [c]:
    what may follow the second field of a split. *)
Definition endsField (c : ascii) (tail : string) : Prop :=
  tail = "" \/ exists t, tail = String c t.

(** The KERBEROS members the loop keeps, and as which kerb: the member
    starts with [kerb/root@ATHENA.MIT.EDU], or has no [/] and starts with
    [kerb@ATHENA.MIT.EDU] or [kerb@MIT.EDU]; in both cases the second
    field ends there. *)
Definition keptAs (user kerb : string) : Prop :=
  (includes kerb "/" = false
   /\ exists tail, endsField "/" tail /\ user = kerb ++ "/root@ATHENA.MIT.EDU" ++ tail)
  \/ (includes user "/" = false /\ includes kerb "@" = false
      /\ exists realm tail,
           In realm acceptedRealms /\ endsField "@" tail
           /\ user = kerb ++ "@" ++ realm ++ tail).

(** The members [getMITMembersOfList] looks at. *)
Definition userOrKerberos (m : ListMember) : bool := isUser m || isKerberos m.

(** The template literal of [getUserName], before the [replace]. *)
Definition nameTemplate (attributes : UserAttributes.t) : string :=
  UserAttributes.first attributes ++ " " ++ UserAttributes.middle attributes
  ++ " " ++ UserAttributes.last attributes.

(** A directory every call of which is rejected with [e]. *)
Definition unreachable (e : exn) : soapClient := fun _ _ => Throw e.

(** A text event without a body: [{ sender, content: { msgtype } }]. *)
Definition bodiless (sender msgtype : string) : value :=
  Obj [("sender", Str sender); ("content", Obj [("msgtype", Str msgtype)])].

(** The handler sent nothing, or one notice into the room of the event
    and in reply to it. *)
Definition atMostOneReply (roomId : string) (event : value) (sent : list notice) : Prop :=
  sent = [] \/ exists text', sent = [{| room := roomId; inReplyTo := event; text := text' |}].

(** A KERBEROS member the loop keeps. *)
Definition keptMember (m : ListMember) : bool :=
  isKerberos m
  && match athenaKerb (member m) with
     | Some _ => true
     | None => false
     end.

(** The commands of the handler, and a dispatcher that tests their
    prefixes in a given order and runs the first that fits. *)
Inductive command : Type := Hello | MyClasses | MyName.

Definition prefixOf (c : command) : string :=
  match c with
  | Hello => "!hello"
  | MyClasses => "!myclasses"
  | MyName => "!myname"
  end.

(** The branch of the handler for each command. *)
Definition runCommand (moira : soapClient) (client : Chat.client) (roomId : string)
  (event : value) (username : string) (c : command) : task unit :=
  match c with
  | Hello => replyNotice client roomId event "Hello world!"
  | MyClasses =>
      classes <~ lift (getUserClasses moira username) ;;
      replyNotice client roomId event
        (join (MoiraBot.currentClasses classes) (String LF ""))
  | MyName =>
      name <~ lift (getUserName moira username) ;;
      replyNotice client roomId event name
  end.

Fixpoint dispatchIn (order : list command) (run : command -> task unit) (body : string)
  : task unit :=
  match order with
  | [] => done
  | c :: rest =>
      if startsWith body (prefixOf c) then run c else dispatchIn rest run body
  end.

End Spec.

Import Moira Spec.

(** * Properties *)

(** ** Strings *)

Lemma append_empty_r (s : string) : s ++ "" = s.
Proof. induction s as [|c s IH]; simpl; [reflexivity | now rewrite IH]. Qed.

Lemma append_assoc (a b c : string) : (a ++ b) ++ c = a ++ b ++ c.
Proof. induction a as [|x a IH]; simpl; [reflexivity | now rewrite IH]. Qed.

Lemma prefix_empty (s : string) : String.prefix "" s = true.
Proof. destruct s; reflexivity. Qed.

Lemma prefix_cons (a : ascii) (s1 : string) (b : ascii) (s2 : string) :
  String.prefix (String a s1) (String b s2) = Ascii.eqb a b && String.prefix s1 s2.
Proof.
  change (String.prefix (String a s1) (String b s2))
    with (if ascii_dec a b then String.prefix s1 s2 else false).
  destruct (ascii_dec a b) as [->|n].
  - now rewrite Ascii.eqb_refl.
  - apply Ascii.eqb_neq in n. now rewrite n.
Qed.

Lemma prefix_char (c a : ascii) (s : string) :
  String.prefix (String c "") (String a s) = Ascii.eqb a c.
Proof.
  simpl. destruct (ascii_dec c a) as [->|n].
  - destruct s; now rewrite Ascii.eqb_refl.
  - symmetry. apply Ascii.eqb_neq. congruence.
Qed.

(** [includes] with a one-character needle looks at every character. *)
Lemma includes_char_cons (c a : ascii) (s : string) :
  includes (String a s) (String c "") = Ascii.eqb a c || includes s (String c "").
Proof.
  change (includes (String a s) (String c ""))
    with (String.prefix (String c "") (String a s) || includes s (String c "")).
  now rewrite prefix_char.
Qed.

Lemma includes_char_empty (c : ascii) : includes "" (String c "") = false.
Proof. reflexivity. Qed.

Lemma includes_char_app (c : ascii) (a b : string) :
  includes (a ++ b) (String c "") = includes a (String c "") || includes b (String c "").
Proof.
  induction a as [|x a IH].
  - reflexivity.
  - change (String x a ++ b) with (String x (a ++ b)).
    rewrite !includes_char_cons, IH. now rewrite orb_assoc.
Qed.

Lemma split_not_nil (s : string) (c : ascii) : split s c <> [].
Proof.
  destruct s as [|a s]; simpl; [discriminate|].
  destruct (Ascii.eqb a c); [discriminate|].
  destruct (split s c); discriminate.
Qed.

(** A string without the separator is a single field. *)
Lemma split_single (s : string) (c : ascii) :
  includes s (String c "") = false -> split s c = [s].
Proof.
  induction s as [|a s IH]; intros H.
  - reflexivity.
  - rewrite includes_char_cons in H. apply orb_false_iff in H as [Ha Hs].
    simpl. rewrite Ha, (IH Hs). reflexivity.
Qed.

(** The first field ends at the first separator. *)
Lemma split_first (a b : string) (c : ascii) :
  includes a (String c "") = false ->
  split (a ++ String c b) c = a :: split b c.
Proof.
  induction a as [|x a IH]; intros H.
  - simpl. now rewrite Ascii.eqb_refl.
  - rewrite includes_char_cons in H. apply orb_false_iff in H as [Hx Ha].
    change (String x a ++ String c b) with (String x (a ++ String c b)).
    simpl. rewrite Hx, (IH Ha). reflexivity.
Qed.

Lemma prefix_app_l (a b s : string) :
  String.prefix (a ++ b) s = true -> String.prefix a s = true.
Proof.
  revert s. induction a as [|x a IH]; intros s H.
  - destruct s; reflexivity.
  - destruct s as [|y s]; simpl in *; [discriminate|].
    destruct (ascii_dec x y); [now apply IH | discriminate].
Qed.

Lemma prefix_app_self (a b : string) : String.prefix a (a ++ b) = true.
Proof.
  induction a as [|x a IH]; simpl.
  - destruct b; reflexivity.
  - destruct (ascii_dec x x); [exact IH | congruence].
Qed.

Lemma prefix_decompose (a s : string) :
  String.prefix a s = true -> exists rest, s = a ++ rest.
Proof.
  revert s. induction a as [|x a IH]; intros s H.
  - exists s. reflexivity.
  - destruct s as [|y s]; simpl in H; [discriminate|].
    destruct (ascii_dec x y) as [->|]; [|discriminate].
    destruct (IH _ H) as [rest ->]. exists rest. reflexivity.
Qed.

(** ** [getMITMembersOfList] *)

Lemma visitKerberos_push (athenaUsers : list string) (user : string) :
  visitKerberos athenaUsers user = (athenaUsers ++ kerbList user)%list.
Proof.
  unfold kerbList, athenaKerb, visitKerberos.
  destruct (includes user "/").
  - destruct (split user "/") as [|kerb rest]; [now rewrite app_nil_r|].
    destruct (looseEqualsString (hd_error rest) "root@ATHENA.MIT.EDU"); simpl;
      [reflexivity | now rewrite app_nil_r].
  - destruct (split user "@") as [|kerb rest]; [now rewrite app_nil_r|].
    destruct (looseEqualsString (hd_error rest) "ATHENA.MIT.EDU"
              || looseEqualsString (hd_error rest) "MIT.EDU"); simpl;
      [reflexivity | now rewrite app_nil_r].
Qed.

(** The loop appends, member by member, what each member contributes. *)
Lemma loop_flat_map (users athenaUsers : list string) :
  fold_left visitKerberos users athenaUsers
  = (athenaUsers ++ flat_map kerbList users)%list.
Proof.
  revert athenaUsers. induction users as [|user users IH]; intros acc; simpl.
  - now rewrite app_nil_r.
  - rewrite IH, visitKerberos_push, <- app_assoc. reflexivity.
Qed.

Lemma filterByType_USER (allMembers : list ListMember) :
  filterByType allMembers USER = map member (filter isUser allMembers).
Proof.
  unfold filterByType. apply f_equal. apply filter_ext. intros m.
  unfold isUser, MemberType_eqb. destruct (type m); reflexivity.
Qed.

Lemma filterByType_KERBEROS (allMembers : list ListMember) :
  filterByType allMembers KERBEROS = map member (filter isKerberos allMembers).
Proof.
  unfold filterByType. apply f_equal. apply filter_ext. intros m.
  unfold isKerberos, MemberType_eqb. destruct (type m); reflexivity.
Qed.

Lemma mitMembers_eq (allMembers : list ListMember) :
  mitMembers allMembers
  = (map member (filter isUser allMembers)
     ++ flat_map kerbList (map member (filter isKerberos allMembers)))%list.
Proof.
  unfold mitMembers. cbv zeta.
  rewrite loop_flat_map, filterByType_USER, filterByType_KERBEROS. reflexivity.
Qed.

Lemma getMITMembersOfList_body (client : soapClient) (listName : string)
  (allMembers : list ListMember) :
  getMembersOfList client listName true = Normal (Some allMembers) ->
  getMITMembersOfList client listName = Normal (mitMembers allMembers).
Proof. intros H. unfold getMITMembersOfList. rewrite H. reflexivity. Qed.

Lemma in_kerbList (user kerb : string) :
  In kerb (kerbList user) <-> athenaKerb user = Some kerb.
Proof.
  unfold kerbList. destruct (athenaKerb user) as [k|]; simpl.
  - split; [intros [->|[]]; reflexivity | intros [= ->]; now left].
  - split; [intros [] | discriminate].
Qed.

Lemma in_mitMembers (allMembers : list ListMember) (kerb : string) :
  In kerb (mitMembers allMembers) <->
  (exists m, In m allMembers /\ type m = USER /\ member m = kerb)
  \/ (exists m, In m allMembers /\ type m = KERBEROS /\ athenaKerb (member m) = Some kerb).
Proof.
  rewrite mitMembers_eq, in_app_iff, in_map_iff, in_flat_map.
  assert (Husers :
    (exists m, member m = kerb /\ In m (filter isUser allMembers))
    <-> (exists m, In m allMembers /\ type m = USER /\ member m = kerb)).
  { split.
    - intros (m & Hm & Hin). apply filter_In in Hin as [Hin Hty].
      exists m. repeat split; trivial.
      unfold isUser in Hty. destruct (type m); congruence.
    - intros (m & Hin & Hty & Hm). exists m. split; [exact Hm|].
      apply filter_In. split; [exact Hin|]. unfold isUser. now rewrite Hty. }
  assert (Hkerberos :
    (exists user, In user (map member (filter isKerberos allMembers))
                  /\ In kerb (kerbList user))
    <-> (exists m, In m allMembers /\ type m = KERBEROS
                   /\ athenaKerb (member m) = Some kerb)).
  { split.
    - intros (user & Hin & Hk). apply in_map_iff in Hin as (m & <- & Hin).
      apply filter_In in Hin as [Hin Hty]. exists m. repeat split; trivial.
      + unfold isKerberos in Hty. destruct (type m); congruence.
      + now apply in_kerbList.
    - intros (m & Hin & Hty & Hk). exists (member m). split.
      + apply in_map. apply filter_In. split; [exact Hin|].
        unfold isKerberos. now rewrite Hty.
      + now apply in_kerbList. }
  rewrite Husers, Hkerberos. reflexivity.
Qed.

Lemma plainName_inv (s : string) :
  plainName s = true -> includes s "/" = false /\ includes s "@" = false.
Proof.
  unfold plainName. intros H. apply andb_true_iff in H as [H1 H2].
  split; now apply negb_true_iff.
Qed.

(** [kerb/root@REALM] is kept for the realm ATHENA.MIT.EDU only. *)
Lemma athenaKerb_root (kerb realm : string) :
  plainName kerb = true -> plainName realm = true ->
  athenaKerb (kerb ++ "/root@" ++ realm)
  = if String.eqb realm "ATHENA.MIT.EDU" then Some kerb else None.
Proof.
  intros Hk Hr.
  apply plainName_inv in Hk as [Hk _]. apply plainName_inv in Hr as [Hr _].
  unfold athenaKerb, visitKerberos.
  assert (Hin : includes (kerb ++ "/root@" ++ realm) "/" = true).
  { rewrite includes_char_app. simpl ("/root@" ++ realm).
    rewrite includes_char_cons. simpl. now rewrite orb_true_r. }
  rewrite Hin.
  change (kerb ++ "/root@" ++ realm) with (kerb ++ String "/" ("root@" ++ realm)).
  rewrite (split_first _ _ _ Hk).
  rewrite split_single.
  2:{ rewrite includes_char_app, Hr. reflexivity. }
  simpl. destruct (String.eqb realm "ATHENA.MIT.EDU"); reflexivity.
Qed.

(** [kerb@REALM] is kept for both accepted realms. *)
Lemma athenaKerb_plain (kerb realm : string) :
  plainName kerb = true -> plainName realm = true ->
  athenaKerb (kerb ++ "@" ++ realm)
  = if existsb (String.eqb realm) acceptedRealms then Some kerb else None.
Proof.
  intros Hk Hr.
  apply plainName_inv in Hk as [Hk Hk']. apply plainName_inv in Hr as [Hr Hr'].
  unfold athenaKerb, visitKerberos.
  assert (Hin : includes (kerb ++ "@" ++ realm) "/" = false).
  { rewrite includes_char_app, Hk. simpl ("@" ++ realm).
    rewrite includes_char_cons, Hr. reflexivity. }
  rewrite Hin.
  change (kerb ++ "@" ++ realm) with (kerb ++ String "@" realm).
  rewrite (split_first _ _ _ Hk'), (split_single _ _ Hr').
  simpl. rewrite orb_false_r.
  destruct (String.eqb realm "ATHENA.MIT.EDU" || String.eqb realm "MIT.EDU"); reflexivity.
Qed.

(** C9: for every member list the directory returns, the result of
    [getMITMembersOfList] is the identifiers of the USER members in their
    original order, followed by the kerbs kept from the KERBEROS members
    in their original order. *)
Theorem getMITMembersOfList_order (client : soapClient) (listName : string)
  (allMembers : list ListMember) :
  getMembersOfList client listName true = Normal (Some allMembers) ->
  getMITMembersOfList client listName
  = Normal (map member (filter isUser allMembers)
            ++ flat_map kerbList (map member (filter isKerberos allMembers)))%list.
Proof.
  intros H. rewrite (getMITMembersOfList_body _ _ _ H), mitMembers_eq. reflexivity.
Qed.

Lemma getMITMembersOfList_order_witness :
  getMITMembersOfList
    (listing [mkMember KERBEROS "k1@MIT.EDU"; mkMember USER "u1"; mkMember LIST "l";
              mkMember KERBEROS "k2/root@ATHENA.MIT.EDU"; mkMember USER "u2"])
    "sipb"
  = Normal ["u1"; "u2"; "k1"; "k2"].
Proof.
  exact (getMITMembersOfList_order
           (listing [mkMember KERBEROS "k1@MIT.EDU"; mkMember USER "u1"; mkMember LIST "l";
                     mkMember KERBEROS "k2/root@ATHENA.MIT.EDU"; mkMember USER "u2"])
           "sipb"
           [mkMember KERBEROS "k1@MIT.EDU"; mkMember USER "u1"; mkMember LIST "l";
            mkMember KERBEROS "k2/root@ATHENA.MIT.EDU"; mkMember USER "u2"]
           eq_refl).
Defined.

(** C1 (as stated, refuted): a KERBEROS member [xyz/root@MIT.EDU] has one
    of the two forms and one of the two accepted realms, yet the adapter
    leaves it out. *)
Lemma getMITMembersOfList_root_MIT_EDU_left_out :
  ~ (forall client listName allMembers,
        getMembersOfList client listName true = Normal (Some allMembers) ->
        exists result,
          getMITMembersOfList client listName = Normal result
          /\ forall kerb,
               In kerb result <->
               (exists m, In m allMembers /\ type m = USER /\ member m = kerb)
               \/ (exists m, In m allMembers /\ type m = KERBEROS
                             /\ specPrincipal acceptedRealms (member m) kerb)).
Proof.
  intros H.
  destruct (H (listing [mkMember KERBEROS "xyz/root@MIT.EDU"])
              "sipb" [mkMember KERBEROS "xyz/root@MIT.EDU"] eq_refl)
    as (result & Hres & Hin).
  vm_compute in Hres. injection Hres as <-.
  apply (Hin "xyz"). right.
  exists (mkMember KERBEROS "xyz/root@MIT.EDU").
  split; [now left|]. split; [reflexivity|].
  exists "MIT.EDU". split; [right; now left | now left].
Qed.

(** No choice of accepted realms makes that reading fit: with MIT.EDU
    among them [xyz/root@MIT.EDU] should be kept and is not, without it
    [xyz@MIT.EDU] should be left out and is kept. *)
Lemma no_realm_set_fits_both_forms (realms : list string) :
  ~ (forall allMembers kerb,
        In kerb (mitMembers allMembers) <->
        (exists m, In m allMembers /\ type m = USER /\ member m = kerb)
        \/ (exists m, In m allMembers /\ type m = KERBEROS
                      /\ specPrincipal realms (member m) kerb)).
Proof.
  intros H. destruct (in_dec string_dec "MIT.EDU" realms) as [Hin|Hout].
  - apply (H [mkMember KERBEROS "xyz/root@MIT.EDU"] "xyz"). right.
    exists (mkMember KERBEROS "xyz/root@MIT.EDU").
    split; [now left|]. split; [reflexivity|].
    exists "MIT.EDU". split; [exact Hin | now left].
  - assert (Hkept : In "xyz" (mitMembers [mkMember KERBEROS "xyz@MIT.EDU"]))
      by (now left).
    apply H in Hkept as [(m & [<-|[]] & Hty & _) | (m & [<-|[]] & _ & realm & Hr & Hform)].
    + discriminate.
    + simpl in Hform. destruct Hform as [Hform|Hform]; [discriminate|].
      injection Hform as <-. contradiction.
Qed.

(** C1 (amended): the result of [getMITMembersOfList] holds exactly the
    identifiers of the USER members and the kerbs kept from the KERBEROS
    members; for a kerb and a realm without [/] and [@], [kerb/root@REALM]
    is kept when the realm is ATHENA.MIT.EDU (not MIT.EDU), [kerb@REALM]
    when the realm is ATHENA.MIT.EDU or MIT.EDU; and the three members of
    the example give [["abc"; "xyz"]]. *)
Theorem getMITMembersOfList_union :
  (forall client listName allMembers,
      getMembersOfList client listName true = Normal (Some allMembers) ->
      exists result,
        getMITMembersOfList client listName = Normal result
        /\ forall kerb,
             In kerb result <->
             (exists m, In m allMembers /\ type m = USER /\ member m = kerb)
             \/ (exists m, In m allMembers /\ type m = KERBEROS
                           /\ athenaKerb (member m) = Some kerb))
  /\ (forall kerb realm,
         plainName kerb = true -> plainName realm = true ->
         athenaKerb (kerb ++ "/root@" ++ realm)
         = (if String.eqb realm "ATHENA.MIT.EDU" then Some kerb else None)
         /\ athenaKerb (kerb ++ "@" ++ realm)
            = (if existsb (String.eqb realm) acceptedRealms then Some kerb else None))
  /\ (forall l1 l2 l3,
         mitMembers [ {| list_ := l1; member := "abc"; type := USER |};
                      {| list_ := l2; member := "xyz/root@ATHENA.MIT.EDU"; type := KERBEROS |};
                      {| list_ := l3; member := "foo@CORP.EXAMPLE"; type := KERBEROS |} ]
         = ["abc"; "xyz"]).
Proof.
  split; [|split].
  - intros client listName allMembers H. exists (mitMembers allMembers).
    split; [now apply getMITMembersOfList_body | apply in_mitMembers].
  - intros kerb realm Hk Hr. split.
    + now apply athenaKerb_root.
    + now apply athenaKerb_plain.
  - reflexivity.
Qed.

Lemma getMITMembersOfList_union_witness :
  (exists result,
      getMITMembersOfList
        (listing [mkMember USER "abc"; mkMember KERBEROS "xyz/root@ATHENA.MIT.EDU";
                  mkMember KERBEROS "foo@CORP.EXAMPLE"])
        "sipb" = Normal result
      /\ forall kerb,
           In kerb result <->
           (exists m, In m [mkMember USER "abc"; mkMember KERBEROS "xyz/root@ATHENA.MIT.EDU";
                            mkMember KERBEROS "foo@CORP.EXAMPLE"]
                      /\ type m = USER /\ member m = kerb)
           \/ (exists m, In m [mkMember USER "abc"; mkMember KERBEROS "xyz/root@ATHENA.MIT.EDU";
                               mkMember KERBEROS "foo@CORP.EXAMPLE"]
                         /\ type m = KERBEROS /\ athenaKerb (member m) = Some kerb))
  /\ athenaKerb ("xyz" ++ "/root@" ++ "MIT.EDU") = None
  /\ athenaKerb ("xyz" ++ "@" ++ "MIT.EDU") = Some "xyz".
Proof.
  destruct getMITMembersOfList_union as (Hunion & Hforms & _).
  split; [|split].
  - apply (Hunion
             (listing [mkMember USER "abc"; mkMember KERBEROS "xyz/root@ATHENA.MIT.EDU";
                       mkMember KERBEROS "foo@CORP.EXAMPLE"])
             "sipb"). reflexivity.
  - apply (Hforms "xyz" "MIT.EDU"); reflexivity.
  - apply (Hforms "xyz" "MIT.EDU"); reflexivity.
Defined.

(** ** [extractLocalpart] *)

Import MoiraBot.

Lemma dotRun_prefix (s : string) : exists post, s = dotRun s ++ post.
Proof.
  induction s as [|c s [post IH]].
  - exists "". reflexivity.
  - change (dotRun (String c s))
      with (if lineTerminatorAt (String c s) then "" else String c (dotRun s)).
    destruct (lineTerminatorAt (String c s)).
    + exists (String c s). reflexivity.
    + exists post. simpl. now rewrite <- IH.
Qed.

Lemma lastColon_shape (r g : string) :
  lastColon r = Some g -> exists c rest, r = g ++ ":" ++ String c rest.
Proof.
  revert g. induction r as [|x r IH]; intros g H; simpl in H; [discriminate|].
  destruct (lastColon r) as [g'|].
  - injection H as <-. destruct (IH g' eq_refl) as (c & rest & ->).
    exists c, rest. reflexivity.
  - destruct r as [|c rest]; [discriminate|].
    destruct (Ascii.eqb_spec x ":") as [->|]; [|discriminate].
    injection H as <-. exists c, rest. reflexivity.
Qed.

Lemma lastColon_cons (x : ascii) (r : string) :
  lastColon (String x r)
  = match lastColon r with
    | Some g => Some (String x g)
    | None =>
        match r with
        | EmptyString => None
        | String _ _ => if Ascii.eqb x ":" then Some EmptyString else None
        end
    end.
Proof. reflexivity. Qed.

Lemma lastColon_found (a : string) (c : ascii) (rest : string) :
  lastColon (a ++ ":" ++ String c rest) <> None.
Proof.
  induction a as [|x a IH].
  - change ("" ++ ":" ++ String c rest) with (String ":" (String c rest)).
    rewrite lastColon_cons.
    destruct (lastColon (String c rest)); discriminate.
  - change (String x a ++ ":" ++ String c rest)
      with (String x (a ++ ":" ++ String c rest)).
    rewrite lastColon_cons.
    destruct (lastColon (a ++ ":" ++ String c rest)); [discriminate | contradiction].
Qed.

Lemma matchHere_shape (s g : string) :
  matchHere s = Some g ->
  exists t c rest, s = "@" ++ t /\ dotRun t = g ++ ":" ++ String c rest /\ g <> "".
Proof.
  unfold matchHere. destruct s as [|a t]; [discriminate|].
  destruct (Ascii.eqb_spec a "@") as [->|]; [|discriminate].
  destruct (dotRun t) as [|c1 r] eqn:Hrun; [discriminate|].
  destruct (lastColon r) as [g'|] eqn:Hcolon; [|discriminate].
  intros [= <-]. destruct (lastColon_shape _ _ Hcolon) as (c & rest & ->).
  exists t, c, rest. repeat split; [exact Hrun | discriminate].
Qed.

Lemma matchHere_found (t name : string) (c : ascii) (rest : string) :
  dotRun t = name ++ ":" ++ String c rest -> name <> "" ->
  matchHere ("@" ++ t) <> None.
Proof.
  intros Hrun Hname. simpl. rewrite Hrun.
  destruct name as [|c1 g]; [contradiction|].
  pose proof (lastColon_found g c rest) as H. simpl in H |- *.
  destruct (lastColon (g ++ String ":" (String c rest))); [discriminate | contradiction].
Qed.

Lemma matchLocalpart_cons (x : ascii) (s : string) :
  matchLocalpart (String x s)
  = match matchHere (String x s) with
    | Some g => Some g
    | None => matchLocalpart s
    end.
Proof. reflexivity. Qed.

Lemma matchLocalpart_skip (pre s : string) :
  matchLocalpart s <> None -> matchLocalpart (pre ++ s) <> None.
Proof.
  intros H. induction pre as [|x pre IH]; [exact H|].
  change (String x pre ++ s) with (String x (pre ++ s)).
  rewrite matchLocalpart_cons.
  destruct (matchHere (String x (pre ++ s))); [discriminate | exact IH].
Qed.

Lemma matchLocalpart_here (s : string) :
  matchHere s <> None -> matchLocalpart s <> None.
Proof.
  intros H. destruct s as [|x s]; [exact H|].
  rewrite matchLocalpart_cons.
  destruct (matchHere (String x s)); [discriminate | contradiction].
Qed.

(** Whatever the match returns stands between an [@] and a [:] of the
    input, wherever that [@] is. *)
Lemma matchLocalpart_shape (s g : string) :
  matchLocalpart s = Some g ->
  exists pre t c rest,
    s = pre ++ "@" ++ t /\ dotRun t = g ++ ":" ++ String c rest /\ g <> "".
Proof.
  induction s as [|x s IH].
  - simpl. discriminate.
  - rewrite matchLocalpart_cons.
    destruct (matchHere (String x s)) as [g'|] eqn:Hhere.
    + intros [= ->]. destruct (matchHere_shape _ _ Hhere) as (t & c & rest & Hs & Hrun & Hg).
      exists "", t, c, rest. repeat split; assumption.
    + intros H. destruct (IH H) as (pre & t & c & rest & -> & Hrun & Hg).
      exists (String x pre), t, c, rest. repeat split; assumption.
Qed.

Lemma matchLocalpart_matchable (s : string) :
  matchLocalpart s <> None <-> matchable s.
Proof.
  split.
  - destruct (matchLocalpart s) as [g|] eqn:H; [intros _ | contradiction].
    destruct (matchLocalpart_shape _ _ H) as (pre & t & c & rest & Hs & Hrun & Hg).
    exists pre, t, g, c, rest. repeat split; assumption.
  - intros (pre & t & name & c & rest & -> & Hrun & Hname).
    apply matchLocalpart_skip, matchLocalpart_here.
    now apply (matchHere_found t name c rest).
Qed.

Lemma matchable_includes (s : string) :
  matchable s -> includes s "@" = true /\ includes s ":" = true.
Proof.
  intros (pre & t & name & c & rest & -> & Hrun & _).
  destruct (dotRun_prefix t) as [post Ht]. rewrite Hrun in Ht.
  split.
  - rewrite includes_char_app. simpl ("@" ++ t). rewrite includes_char_cons.
    simpl. now rewrite orb_true_r.
  - rewrite includes_char_app. simpl ("@" ++ t). rewrite includes_char_cons.
    rewrite Ht, !includes_char_app. simpl (":" ++ String c rest).
    rewrite (includes_char_cons ":" ":"). simpl. now rewrite !orb_true_r.
Qed.

Lemma lastColon_none (d : string) : includes d ":" = false -> lastColon d = None.
Proof.
  induction d as [|x d IH]; intros H; [reflexivity|].
  rewrite includes_char_cons in H. apply orb_false_iff in H as [Hx Hd].
  rewrite lastColon_cons, (IH Hd), Hx. destruct d; reflexivity.
Qed.

Lemma lastColon_last (g d : string) :
  includes d ":" = false -> d <> "" -> lastColon (g ++ ":" ++ d) = Some g.
Proof.
  intros Hd Hne. induction g as [|x g IH].
  - change ("" ++ ":" ++ d) with (String ":" d).
    rewrite lastColon_cons, (lastColon_none _ Hd).
    destruct d; [contradiction | reflexivity].
  - change (String x g ++ ":" ++ d) with (String x (g ++ ":" ++ d)).
    rewrite lastColon_cons, IH. reflexivity.
Qed.

Lemma matchHere_elsewhere (x : ascii) (s : string) :
  Ascii.eqb x "@" = false -> matchHere (String x s) = None.
Proof. intros H. unfold matchHere. now rewrite H. Qed.

(** Text without [@] in front of a match is skipped over. *)
Lemma matchLocalpart_after (pre s : string) :
  includes pre "@" = false -> matchLocalpart (pre ++ s) = matchLocalpart s.
Proof.
  induction pre as [|x pre IH]; intros H; [reflexivity|].
  rewrite includes_char_cons in H. apply orb_false_iff in H as [Hx Hpre].
  change (String x pre ++ s) with (String x (pre ++ s)).
  rewrite matchLocalpart_cons, (matchHere_elsewhere _ _ Hx). now apply IH.
Qed.

(** At an [@] followed by [name:domain] on one line, the domain without
    [:], the greedy group ends up on [name]. *)
Lemma matchLocalpart_at (name domain : string) :
  name <> "" -> domain <> "" -> includes domain ":" = false ->
  dotRun (name ++ ":" ++ domain) = name ++ ":" ++ domain ->
  matchLocalpart (String "@" (name ++ ":" ++ domain)) = Some name.
Proof.
  intros Hname Hdomain Hcolon Hrun.
  rewrite matchLocalpart_cons. unfold matchHere.
  rewrite Ascii.eqb_refl, Hrun.
  destruct name as [|c1 g]; [contradiction|].
  change (String c1 g ++ ":" ++ domain) with (String c1 (g ++ ":" ++ domain)).
  cbv iota. rewrite (lastColon_last _ _ Hcolon Hdomain). reflexivity.
Qed.

(** C3 (as stated, refuted): an identifier without a leading [@] can still
    be taken apart, at an [@] further in. *)
Lemma extractLocalpart_inner_at :
  ~ (forall username,
        startsWith username "@" = false \/ includes username ":" = false ->
        extractLocalpart username = Throw TypeError).
Proof.
  intros H. specialize (H "x@jdoe:matrix.org" (or_introl eq_refl)).
  vm_compute in H. discriminate.
Qed.

(** C3 (amended): [extractLocalpart "@jdoe:matrix.example.org"] returns
    ["jdoe"]; for every input without any [@] or without any [:],
    [extractLocalpart] throws.  It throws exactly when the input holds no
    [@] followed on the same line by one or more characters, a [:] and
    one more character, and returns a name in every other case; a name it
    returns stands between such an [@] and [:].  The [@] need not be
    leading: after any text without [@], [@name:domain] (name and domain
    not empty, no [:] in the domain, all on one line) gives [name], and
    ["x@jdoe:matrix.org"] gives ["jdoe"]. *)
Theorem extractLocalpart_spec :
  extractLocalpart "@jdoe:matrix.example.org" = Normal "jdoe"
  /\ (forall username,
         includes username "@" = false \/ includes username ":" = false ->
         extractLocalpart username = Throw TypeError)
  /\ (forall username,
         extractLocalpart username = Throw TypeError <-> ~ matchable username)
  /\ (forall username,
         (exists name, extractLocalpart username = Normal name) <-> matchable username)
  /\ (forall username name,
         extractLocalpart username = Normal name ->
         exists pre t c rest,
           username = pre ++ "@" ++ t
           /\ dotRun t = name ++ ":" ++ String c rest /\ name <> "")
  /\ (forall pre name domain,
         includes pre "@" = false ->
         name <> "" -> domain <> "" -> includes domain ":" = false ->
         dotRun (name ++ ":" ++ domain) = name ++ ":" ++ domain ->
         extractLocalpart (pre ++ "@" ++ name ++ ":" ++ domain) = Normal name)
  /\ extractLocalpart "x@jdoe:matrix.org" = Normal "jdoe".
Proof.
  assert (Hthrow : forall username,
             extractLocalpart username = Throw TypeError <-> ~ matchable username).
  { intros username. rewrite <- matchLocalpart_matchable. unfold extractLocalpart.
    destruct (matchLocalpart username); split; intros H;
      try discriminate; try reflexivity.
    - exfalso. apply H. discriminate.
    - intros H'. now apply H'. }
  assert (Hreturn : forall username,
             (exists name, extractLocalpart username = Normal name) <-> matchable username).
  { intros username. rewrite <- matchLocalpart_matchable. unfold extractLocalpart.
    destruct (matchLocalpart username) as [g|]; split.
    - intros _. discriminate.
    - intros _. now exists g.
    - intros [name H]. discriminate.
    - intros H. now contradiction H. }
  split; [reflexivity|]. split; [|split; [|split; [|split; [|split]]]].
  - intros username H. apply Hthrow. intros Hm.
    apply matchable_includes in Hm as [Hat Hcolon].
    destruct H as [H|H]; congruence.
  - exact Hthrow.
  - exact Hreturn.
  - intros username name H. unfold extractLocalpart in H.
    destruct (matchLocalpart username) as [g|] eqn:Hg; [|discriminate].
    injection H as <-. now apply matchLocalpart_shape.
  - intros pre name domain Hpre Hname Hdomain Hcolon Hrun. unfold extractLocalpart.
    change (pre ++ "@" ++ name ++ ":" ++ domain)
      with (pre ++ String "@" (name ++ ":" ++ domain)).
    rewrite (matchLocalpart_after _ _ Hpre),
            (matchLocalpart_at _ _ Hname Hdomain Hcolon Hrun).
    reflexivity.
  - reflexivity.
Qed.

Lemma extractLocalpart_spec_witness :
  extractLocalpart "jdoe:matrix.example.org" = Throw TypeError
  /\ extractLocalpart "@jdoe" = Throw TypeError
  /\ extractLocalpart ("mailto:x" ++ "@" ++ "jdoe" ++ ":" ++ "matrix.org") = Normal "jdoe"
  /\ matchable "x@jdoe:matrix.org".
Proof.
  destruct extractLocalpart_spec as (_ & Hnone & _ & Hreturn & _ & Hinner & Hexample).
  split; [|split; [|split]].
  - apply Hnone. left. reflexivity.
  - apply Hnone. right. reflexivity.
  - apply Hinner; [reflexivity | discriminate | discriminate | reflexivity | reflexivity].
  - apply Hreturn. exists "jdoe". exact Hexample.
Defined.

(** ** [apiCall] and the four queries built on it *)

Lemma apiCall_absent (client : soapClient) (method : string)
  (args : list (string * value)) (p : payload (Returned method)) :
  client method args = Normal p -> absent p = true ->
  apiCall client method args = Throw (NoAPIResult (method ++ " didn't return anything!")).
Proof.
  intros H Hp. unfold apiCall. rewrite H. simpl.
  destruct p; [reflexivity | reflexivity | discriminate].
Qed.

Lemma apiCall_present (client : soapClient) (method : string)
  (args : list (string * value)) (fields : list (string * Returned method)) :
  client method args = Normal (PObject fields) ->
  apiCall client method args = Normal (assoc (method ++ "Return") fields).
Proof. intros H. unfold apiCall. rewrite H. reflexivity. Qed.

Lemma apiCall_NoAPIResult_only (client : soapClient) (method : string)
  (args : list (string * value)) (p : payload (Returned method)) (message : string) :
  client method args = Normal p ->
  apiCall client method args = Throw (NoAPIResult message) ->
  absent p = true.
Proof.
  intros H. unfold apiCall. rewrite H. simpl.
  destruct p; [reflexivity | reflexivity | discriminate].
Qed.

(** Unfolds the declared type of each operation's returned field. *)
Ltac returned :=
  change (Returned "getListMembership") with (list ListMember) in *;
  change (Returned "getListAttributes") with (list ListAttributes.t) in *;
  change (Returned "getUserAttributes") with (list UserAttributes.t) in *;
  change (Returned "getUserLists") with (list string) in *.

(** C6: each of the four queries raises [NoAPIResult] when the top-level
    payload of the response is [null] or [undefined]; an empty collection
    in the response is no error: the list queries return it as the empty
    list, the attribute lookups find no first record and return
    [undefined]. *)
Theorem queries_without_payload (client : soapClient) :
  (forall listName recursiveSearch (p : payload (list ListMember)),
      client "getListMembership"
        [("listName", Str listName); ("recursiveSearch", Bool recursiveSearch);
         ("maxReturnCount", Num 0)] = Normal p ->
      (absent p = true ->
       getMembersOfList client listName recursiveSearch
       = Throw (NoAPIResult "getListMembership didn't return anything!"))
      /\ (forall fields, p = PObject fields ->
          assoc "getListMembershipReturn" fields = Some [] ->
          getMembersOfList client listName recursiveSearch = Normal (Some [])))
  /\ (forall listName (p : payload (list ListAttributes.t)),
      client "getListAttributes" [("listName", Str listName)] = Normal p ->
      (absent p = true ->
       getListAttributes client listName
       = Throw (NoAPIResult "getListAttributes didn't return anything!"))
      /\ (forall fields, p = PObject fields ->
          assoc "getListAttributesReturn" fields = Some [] ->
          getListAttributes client listName = Normal None))
  /\ (forall kerb (p : payload (list UserAttributes.t)),
      client "getUserAttributes" [("memberID", Str kerb)] = Normal p ->
      (absent p = true ->
       getUserAttributes client kerb
       = Throw (NoAPIResult "getUserAttributes didn't return anything!"))
      /\ (forall fields, p = PObject fields ->
          assoc "getUserAttributesReturn" fields = Some [] ->
          getUserAttributes client kerb = Normal None))
  /\ (forall kerb (p : payload (list string)),
      client "getUserLists" [("memberID", Str kerb); ("memberType", Str "USER")] = Normal p ->
      (absent p = true ->
       getUserLists client kerb
       = Throw (NoAPIResult "getUserLists didn't return anything!"))
      /\ (forall fields, p = PObject fields ->
          assoc "getUserListsReturn" fields = Some [] ->
          getUserLists client kerb = Normal (Some []))).
Proof.
  repeat split.
  - intros Hp. unfold getMembersOfList. now rewrite (apiCall_absent _ _ _ _ H Hp).
  - intros fields -> Hf. unfold getMembersOfList.
    rewrite (apiCall_present _ _ _ _ H). simpl. returned. now rewrite Hf.
  - intros Hp. unfold getListAttributes. now rewrite (apiCall_absent _ _ _ _ H Hp).
  - intros fields -> Hf. unfold getListAttributes.
    rewrite (apiCall_present _ _ _ _ H). simpl. returned. now rewrite Hf.
  - intros Hp. unfold getUserAttributes. now rewrite (apiCall_absent _ _ _ _ H Hp).
  - intros fields -> Hf. unfold getUserAttributes.
    rewrite (apiCall_present _ _ _ _ H). simpl. returned. now rewrite Hf.
  - intros Hp. unfold getUserLists. now rewrite (apiCall_absent _ _ _ _ H Hp).
  - intros fields -> Hf. unfold getUserLists.
    rewrite (apiCall_present _ _ _ _ H). simpl. returned. now rewrite Hf.
Qed.

Lemma queries_without_payload_witness :
  getListAttributes (answering "getListAttributes" PNull) "sipb"
  = Throw (NoAPIResult "getListAttributes didn't return anything!")
  /\ getMembersOfList (answering "getListMembership" PUndefined) "sipb" true
     = Throw (NoAPIResult "getListMembership didn't return anything!")
  /\ getUserLists (userListing []) "abc" = Normal (Some [])
  /\ getUserAttributes (userRecords []) "abc" = Normal None.
Proof.
  split; [|split; [|split]].
  - destruct (queries_without_payload (answering "getListAttributes" PNull))
      as (_ & H & _).
    apply (H "sipb" PNull); reflexivity.
  - destruct (queries_without_payload (answering "getListMembership" PUndefined))
      as (H & _).
    apply (H "sipb" true PUndefined); reflexivity.
  - destruct (queries_without_payload (userListing [])) as (_ & _ & _ & H).
    apply (proj2 (H "abc" (PObject [("getUserListsReturn", [])]) eq_refl)
             [("getUserListsReturn", [])]); reflexivity.
  - destruct (queries_without_payload (userRecords [])) as (_ & _ & H & _).
    apply (proj2 (H "abc" (PObject [("getUserAttributesReturn", [])]) eq_refl)
             [("getUserAttributesReturn", [])]); reflexivity.
Defined.

(** C10 (as stated, refuted): with a payload that lacks the returned
    field, [getListAttributes] does not resolve to [undefined]: indexing
    the missing value throws. *)
Lemma getListAttributes_missing_field_throws :
  ~ (forall (client : soapClient) listName (fields : list (string * list ListAttributes.t)),
        client "getListAttributes" [("listName", Str listName)] = Normal (PObject fields) ->
        assoc "getListAttributesReturn" fields = None ->
        getListAttributes client listName = Normal None).
Proof.
  intros H.
  specialize (H (answering "getListAttributes" (PObject [])) "sipb" [] eq_refl eq_refl).
  vm_compute in H. discriminate.
Qed.

(** C10 (amended): when the top-level payload is an object without the
    [<operation>Return] field, [apiCall] resolves to [undefined], and so
    do [getMembersOfList] and [getUserLists]; [getListAttributes] and
    [getUserAttributes] index that value and throw a [TypeError], not
    [NoAPIResult]; and [apiCall] raises [NoAPIResult] only for a [null] or
    [undefined] payload. *)
Theorem queries_without_returned_field (client : soapClient) :
  (forall method args (fields : list (string * Returned method)),
      client method args = Normal (PObject fields) ->
      assoc (method ++ "Return") fields = None ->
      apiCall client method args = Normal None)
  /\ (forall listName recursiveSearch (fields : list (string * list ListMember)),
      client "getListMembership"
        [("listName", Str listName); ("recursiveSearch", Bool recursiveSearch);
         ("maxReturnCount", Num 0)] = Normal (PObject fields) ->
      assoc "getListMembershipReturn" fields = None ->
      getMembersOfList client listName recursiveSearch = Normal None)
  /\ (forall kerb (fields : list (string * list string)),
      client "getUserLists" [("memberID", Str kerb); ("memberType", Str "USER")]
      = Normal (PObject fields) ->
      assoc "getUserListsReturn" fields = None ->
      getUserLists client kerb = Normal None)
  /\ (forall listName (fields : list (string * list ListAttributes.t)),
      client "getListAttributes" [("listName", Str listName)] = Normal (PObject fields) ->
      assoc "getListAttributesReturn" fields = None ->
      getListAttributes client listName = Throw TypeError)
  /\ (forall kerb (fields : list (string * list UserAttributes.t)),
      client "getUserAttributes" [("memberID", Str kerb)] = Normal (PObject fields) ->
      assoc "getUserAttributesReturn" fields = None ->
      getUserAttributes client kerb = Throw TypeError)
  /\ (forall method args (p : payload (Returned method)) message,
      client method args = Normal p ->
      apiCall client method args = Throw (NoAPIResult message) ->
      absent p = true).
Proof.
  repeat split.
  - intros method args fields H Hf. rewrite (apiCall_present _ _ _ _ H). now rewrite Hf.
  - intros listName recursiveSearch fields H Hf. unfold getMembersOfList.
    rewrite (apiCall_present _ _ _ _ H). simpl. returned. now rewrite Hf.
  - intros kerb fields H Hf. unfold getUserLists.
    rewrite (apiCall_present _ _ _ _ H). simpl. returned. now rewrite Hf.
  - intros listName fields H Hf. unfold getListAttributes.
    rewrite (apiCall_present _ _ _ _ H). simpl. returned. now rewrite Hf.
  - intros kerb fields H Hf. unfold getUserAttributes.
    rewrite (apiCall_present _ _ _ _ H). simpl. returned. now rewrite Hf.
  - intros method args p message. apply apiCall_NoAPIResult_only.
Qed.

Lemma queries_without_returned_field_witness :
  apiCall (answering "getUserLists" (PObject [])) "getUserLists" [] = Normal None
  /\ getMembersOfList (answering "getListMembership" (PObject [])) "sipb" true = Normal None
  /\ getUserLists (answering "getUserLists" (PObject [])) "abc" = Normal None
  /\ getListAttributes (answering "getListAttributes" (PObject [])) "sipb" = Throw TypeError
  /\ getUserAttributes (answering "getUserAttributes" (PObject [])) "abc" = Throw TypeError
  /\ absent (@PNull (list string)) = true.
Proof.
  split; [|split; [|split; [|split; [|split]]]].
  - destruct (queries_without_returned_field (answering "getUserLists" (PObject [])))
      as (H & _).
    apply (H "getUserLists" [] []); reflexivity.
  - destruct (queries_without_returned_field (answering "getListMembership" (PObject [])))
      as (_ & H & _).
    apply (H "sipb" true []); reflexivity.
  - destruct (queries_without_returned_field (answering "getUserLists" (PObject [])))
      as (_ & _ & H & _).
    apply (H "abc" []); reflexivity.
  - destruct (queries_without_returned_field (answering "getListAttributes" (PObject [])))
      as (_ & _ & _ & H & _).
    apply (H "sipb" []); reflexivity.
  - destruct (queries_without_returned_field (answering "getUserAttributes" (PObject [])))
      as (_ & _ & _ & _ & H & _).
    apply (H "abc" []); reflexivity.
  - destruct (queries_without_returned_field (answering "getUserLists" PNull))
      as (_ & _ & _ & _ & _ & H).
    apply (H "getUserLists" [] PNull "getUserLists didn't return anything!"); reflexivity.
Defined.

(** ** [getUserName] *)

Lemma replace_cons (c : ascii) (s pattern replacement : string) :
  replace (String c s) pattern replacement
  = if String.prefix pattern (String c s)
    then replacement ++ drop (String.length pattern) (String c s)
    else String c (replace s pattern replacement).
Proof. reflexivity. Qed.

Lemma includes_cons (c : ascii) (s needle : string) :
  includes (String c s) needle = String.prefix needle (String c s) || includes s needle.
Proof. reflexivity. Qed.

(** When the first name holds no double space, the first double space of
    [first ++ "  " ++ last] is the one the empty middle name left. *)
Lemma replace_gap (f l : string) :
  includes f "  " = false ->
  replace (f ++ "  " ++ l) "  " " " = f ++ " " ++ l.
Proof.
  induction f as [|c f IH]; intros H.
  - change ("" ++ "  " ++ l) with (String " " (String " " l)).
    rewrite replace_cons.
    change (String " " (String " " l)) with ("  " ++ l) at 1.
    rewrite prefix_app_self. reflexivity.
  - rewrite includes_cons in H. apply orb_false_iff in H as [Hhere Hrest].
    specialize (IH Hrest).
    change (String c f ++ "  " ++ l) with (String c (f ++ "  " ++ l)).
    rewrite replace_cons, IH.
    destruct f as [|c' f].
    + change ("" ++ "  " ++ l) with (String " " (String " " l)).
      rewrite !prefix_cons, prefix_empty.
      destruct (Ascii.eqb_spec " " c) as [<-|]; reflexivity.
    + rewrite !prefix_cons, prefix_empty in Hhere.
      change (String c' f ++ "  " ++ l) with (String c' (f ++ "  " ++ l)).
      rewrite !prefix_cons, prefix_empty, Hhere. reflexivity.
Qed.

(** With an empty middle name and a first name without a double space,
    the full name is first and last name joined by one space. *)
Lemma fullName_without_middle (attributes : UserAttributes.t) :
  UserAttributes.middle attributes = "" ->
  includes (UserAttributes.first attributes) "  " = false ->
  fullName attributes
  = UserAttributes.first attributes ++ " " ++ UserAttributes.last attributes.
Proof.
  intros Hm Hf. unfold fullName. rewrite Hm.
  change (UserAttributes.first attributes ++ " " ++ "" ++ " "
          ++ UserAttributes.last attributes)
    with (UserAttributes.first attributes ++ "  " ++ UserAttributes.last attributes).
  now apply replace_gap.
Qed.

(** C8 (the code departs from it): for a user with an empty middle name
    whose first name holds a double space, [getUserName] collapses the
    double space of the first name and leaves the one between first and
    last name: the result is not first and last joined by one space. *)
Theorem getUserName_double_space_in_first_name :
  UserAttributes.middle (named "Mary  Ann" "" "Smith") = ""
  /\ getUserName (userRecords [named "Mary  Ann" "" "Smith"]) "mary"
     = Normal "Mary Ann  Smith"
  /\ getUserName (userRecords [named "Mary  Ann" "" "Smith"]) "mary"
     <> Normal ("Mary  Ann" ++ " " ++ "Smith").
Proof.
  split; [reflexivity|]. split; [reflexivity|].
  vm_compute. discriminate.
Qed.

(** ** [getUserClasses] and the two prefixes *)

Lemma filter_narrower {A} (p q : A -> bool) (l : list A) :
  (forall x, p x = true -> q x = true) ->
  filter p (filter q l) = filter p l.
Proof.
  intros Hpq. induction l as [|x l IH]; simpl; [reflexivity|].
  destruct (q x) eqn:Hq; simpl.
  - now rewrite IH.
  - destruct (p x) eqn:Hp; [|exact IH].
    rewrite (Hpq x Hp) in Hq. discriminate.
Qed.

Lemma currentClasses_of_classes (lists : list string) :
  currentClasses (filter (fun name => startsWith name "canvas") lists)
  = filter (fun name => startsWith name "canvas-2023") lists.
Proof.
  unfold currentClasses. apply filter_narrower. intros name H.
  unfold startsWith in *. now apply (prefix_app_l "canvas" "-2023").
Qed.

Lemma getUserClasses_body (moira : soapClient) (kerb : string) (lists : list string) :
  getUserLists moira kerb = Normal (Some lists) ->
  getUserClasses moira kerb = Normal (filter (fun name => startsWith name "canvas") lists).
Proof. intros H. unfold getUserClasses. rewrite H. reflexivity. Qed.

(** ** The command handlers *)

Lemma andThen_lift_Normal {A B} (a : A) (k : A -> task B) :
  andThen (lift (Normal a)) k = k a.
Proof. unfold andThen, lift. destruct (k a). reflexivity. Qed.

Lemma andThen_lift_Throw {A B} (e : exn) (k : A -> task B) :
  andThen (lift (Throw e)) k = ([], Throw e).
Proof. reflexivity. Qed.

Lemma strictEqualsString_true (v : value) (s : string) :
  strictEqualsString v s = true -> v = Str s.
Proof.
  destruct v; simpl; try discriminate. intros H. apply String.eqb_eq in H. now subst.
Qed.

Lemma myclasses_not_hello (body : string) :
  startsWith body "!myclasses" = true -> startsWith body "!hello" = false.
Proof.
  unfold startsWith. destruct body as [|a [|b body]]; try discriminate.
  - rewrite prefix_cons. destruct (Ascii.eqb "!" a); discriminate.
  - rewrite !(prefix_cons _ _ a), !(prefix_cons _ _ b).
    destruct (Ascii.eqb_spec "m" b) as [<-|]; [intros _ | now rewrite andb_false_r].
    now rewrite andb_false_r.
Qed.

(** Runs a handler through its guards, given what the event holds. *)
Ltac through_guards Hmsg Hsender Hself Hother Hbody :=
  rewrite Hmsg, andThen_lift_Normal;
  cbn [strictEqualsString negb];
  rewrite String.eqb_refl; cbn [negb];
  rewrite Hsender, andThen_lift_Normal, Hself, andThen_lift_Normal, Hother;
  rewrite Hbody, andThen_lift_Normal.

Lemma HelloBot_guards (client : Chat.client) (roomId : string) (event : value) :
  fst (HelloBot.handleCommand client roomId event) <> [] ->
  answerable "m.text" client event.
Proof.
  unfold HelloBot.handleCommand, answerable.
  destruct (msgtypeOf event) as [msgtype|e]; [|intros H; now contradiction H].
  rewrite andThen_lift_Normal.
  destruct (strictEqualsString msgtype "m.text") eqn:Hm;
    [|intros H; now contradiction H].
  apply strictEqualsString_true in Hm as ->. cbn [negb].
  destruct (get event "sender") as [sender|e]; [|intros H; now contradiction H].
  rewrite andThen_lift_Normal.
  destruct (getUserId client) as [self|e]; [|intros H; now contradiction H].
  rewrite andThen_lift_Normal.
  destruct (strictEqualsString sender self) eqn:Hs; [intros H; now contradiction H|].
  intros _. split; [reflexivity|]. exists sender, self. now repeat split.
Qed.

Lemma MoiraBot_guards (moira : soapClient) (client : Chat.client) (roomId : string)
  (event : value) :
  fst (MoiraBot.handleCommand moira client roomId event) <> [] ->
  answerable "m.text" client event.
Proof.
  unfold MoiraBot.handleCommand, answerable.
  destruct (msgtypeOf event) as [msgtype|e]; [|intros H; now contradiction H].
  rewrite andThen_lift_Normal.
  destruct (strictEqualsString msgtype "m.text") eqn:Hm;
    [|intros H; now contradiction H].
  apply strictEqualsString_true in Hm as ->. cbn [negb].
  destruct (get event "sender") as [sender|e]; [|intros H; now contradiction H].
  rewrite andThen_lift_Normal.
  destruct (getUserId client) as [self|e]; [|intros H; now contradiction H].
  rewrite andThen_lift_Normal.
  destruct (strictEqualsString sender self) eqn:Hs; [intros H; now contradiction H|].
  intros _. split; [reflexivity|]. exists sender, self. now repeat split.
Qed.

(** C2: [getUserClasses] returns, in order, exactly the lists whose name
    starts with [canvas]; the [!myclasses] handler keeps of them those
    whose name starts with [canvas-2023] and replies with these, one per
    line; on the three lists of the example the adapter returns two names
    and the handler keeps one. *)
Theorem getUserClasses_two_prefixes :
  (forall moira kerb lists,
      getUserLists moira kerb = Normal (Some lists) ->
      getUserClasses moira kerb
      = Normal (filter (fun name => String.prefix "canvas" name) lists)
      /\ (forall name,
             In name (filter (fun name => String.prefix "canvas" name) lists)
             <-> In name lists /\ exists rest, name = "canvas" ++ rest)
      /\ (forall client roomId event sender body,
             textFromOther client event (Str sender) body ->
             extractLocalpart sender = Normal kerb ->
             startsWith body "!myclasses" = true ->
             MoiraBot.handleCommand moira client roomId event
             = replyNotice client roomId event
                 (join (filter (fun name => String.prefix "canvas-2023" name) lists)
                       (String LF ""))))
  /\ getUserClasses (userListing ["canvas-2023-6.004"; "sipb-board"; "canvas-archive"]) "abc"
     = Normal ["canvas-2023-6.004"; "canvas-archive"]
  /\ currentClasses ["canvas-2023-6.004"; "canvas-archive"] = ["canvas-2023-6.004"]
  /\ fst (MoiraBot.handleCommand
            (userListing ["canvas-2023-6.004"; "sipb-board"; "canvas-archive"])
            (session "@bot:example.org") "!room"
            (message "@abc:example.org" "m.text" "!myclasses"))
     = [{| room := "!room";
           inReplyTo := message "@abc:example.org" "m.text" "!myclasses";
           text := "canvas-2023-6.004" |}].
Proof.
  split; [|repeat split].
  intros moira kerb lists H. split; [|split].
  - now apply getUserClasses_body.
  - intros name. rewrite filter_In. split.
    + intros [Hin Hp]. split; [exact Hin | now apply prefix_decompose].
    + intros [Hin [rest ->]]. split; [exact Hin | apply prefix_app_self].
  - intros client roomId event sender body (Hmsg & Hsender & (self & Hself & Hother) & Hbody)
      Hkerb Hcmd.
    unfold MoiraBot.handleCommand.
    through_guards Hmsg Hsender Hself Hother Hbody.
    rewrite Hkerb, andThen_lift_Normal.
    rewrite (myclasses_not_hello _ Hcmd), Hcmd.
    rewrite (getUserClasses_body _ _ _ H), andThen_lift_Normal.
    now rewrite currentClasses_of_classes.
Qed.

Lemma getUserClasses_two_prefixes_witness :
  getUserClasses (userListing ["canvas-2024-18.01"; "canvas-2023-6.004"; "sipb-board"]) "abc"
  = Normal ["canvas-2024-18.01"; "canvas-2023-6.004"]
  /\ MoiraBot.handleCommand
       (userListing ["canvas-2024-18.01"; "canvas-2023-6.004"; "sipb-board"])
       (session "@bot:example.org") "!room"
       (message "@abc:example.org" "m.text" "!myclasses now")
     = replyNotice (session "@bot:example.org") "!room"
         (message "@abc:example.org" "m.text" "!myclasses now") "canvas-2023-6.004".
Proof.
  destruct getUserClasses_two_prefixes as (H & _).
  destruct (H (userListing ["canvas-2024-18.01"; "canvas-2023-6.004"; "sipb-board"])
              "abc" ["canvas-2024-18.01"; "canvas-2023-6.004"; "sipb-board"] eq_refl)
    as (Hlib & _ & Hbot).
  split; [exact Hlib|].
  apply (Hbot (session "@bot:example.org") "!room"
              (message "@abc:example.org" "m.text" "!myclasses now")
              "@abc:example.org" "!myclasses now").
  - repeat split. exists "@bot:example.org". split; reflexivity.
  - reflexivity.
  - reflexivity.
Defined.

(** C4 (as stated, refuted): the message type tag the handler lets
    through is [m.text]; an event tagged so is answered although its tag
    is not [text]. *)
Lemma reply_to_m_text :
  ~ (forall moira client roomId event,
        fst (MoiraBot.handleCommand moira client roomId event) <> [] ->
        answerable "text" client event).
Proof.
  intros H.
  destruct (H (userListing []) (session "@bot:example.org") "!room"
              (message "@alice:example.org" "m.text" "!hello")) as [Hmsg _].
  - vm_compute. discriminate.
  - vm_compute in Hmsg. discriminate.
Qed.

(** C4 (amended): in both revisions the handler sends no reply unless the
    event's [content.msgtype] is [m.text] and its sender differs from the
    bot's own identifier. *)
Theorem reply_only_when_answerable :
  (forall client roomId event,
      fst (HelloBot.handleCommand client roomId event) <> [] ->
      answerable "m.text" client event)
  /\ (forall moira client roomId event,
      fst (MoiraBot.handleCommand moira client roomId event) <> [] ->
      answerable "m.text" client event).
Proof.
  split.
  - exact HelloBot_guards.
  - exact MoiraBot_guards.
Qed.

Lemma reply_only_when_answerable_witness :
  answerable "m.text" (session "@bot:example.org")
    (message "@alice:example.org" "m.text" "!hello")
  /\ answerable "m.text" (session "@bot:example.org")
       (message "@alice:example.org" "m.text" "!myname").
Proof.
  destruct reply_only_when_answerable as (Hhello & Hmoira).
  split.
  - apply (Hhello (session "@bot:example.org") "!room"). vm_compute. discriminate.
  - apply (Hmoira (userRecords [named "Alice" "" "Liddell"])
                  (session "@bot:example.org") "!room").
    vm_compute. discriminate.
Defined.

(** C5 (as stated, refuted): in the revision with the directory commands
    the sender's identifier is taken apart before the body is looked at;
    [!hello] from [@:example.org] gets no reply. *)
Lemma hello_from_unparsable_sender :
  ~ (forall moira client roomId event sender body,
        textFromOther client event sender body ->
        startsWith body "!hello" = true ->
        fst (MoiraBot.handleCommand moira client roomId event)
        = [{| room := roomId; inReplyTo := event; text := "Hello world!" |}]).
Proof.
  intros H.
  specialize (H (userListing []) (session "@bot:example.org") "!room"
                (message "@:example.org" "m.text" "!hello")
                (Str "@:example.org") "!hello").
  assert (Hreply : fst (MoiraBot.handleCommand (userListing []) (session "@bot:example.org")
                          "!room" (message "@:example.org" "m.text" "!hello"))
                   = [{| room := "!room";
                         inReplyTo := message "@:example.org" "m.text" "!hello";
                         text := "Hello world!" |}]).
  { apply H; [|reflexivity].
    repeat split. exists "@bot:example.org". split; reflexivity. }
  vm_compute in Hreply. discriminate.
Qed.

(** C5 (amended): for a text message not sent by the bot whose body starts
    with [!hello], the greeting-only revision always replies
    [Hello world!]; the revision with the directory commands replies
    [Hello world!] when the sender is a string that [extractLocalpart] can
    take apart, and otherwise throws a [TypeError] without replying. *)
Theorem hello_reply :
  (forall client roomId event sender body,
      textFromOther client event sender body ->
      startsWith body "!hello" = true ->
      HelloBot.handleCommand client roomId event
      = replyNotice client roomId event "Hello world!")
  /\ (forall moira client roomId event sender body kerb,
      textFromOther client event (Str sender) body ->
      extractLocalpart sender = Normal kerb ->
      startsWith body "!hello" = true ->
      MoiraBot.handleCommand moira client roomId event
      = replyNotice client roomId event "Hello world!")
  /\ (forall moira client roomId event sender body,
      textFromOther client event sender body ->
      (forall s, sender = Str s -> extractLocalpart s = Throw TypeError) ->
      MoiraBot.handleCommand moira client roomId event = ([], Throw TypeError)).
Proof.
  split; [|split].
  - intros client roomId event sender body
      (Hmsg & Hsender & (self & Hself & Hother) & Hbody) Hcmd.
    unfold HelloBot.handleCommand.
    through_guards Hmsg Hsender Hself Hother Hbody.
    now rewrite Hcmd.
  - intros moira client roomId event sender body kerb
      (Hmsg & Hsender & (self & Hself & Hother) & Hbody) Hkerb Hcmd.
    unfold MoiraBot.handleCommand.
    through_guards Hmsg Hsender Hself Hother Hbody.
    rewrite Hkerb, andThen_lift_Normal. now rewrite Hcmd.
  - intros moira client roomId event sender body
      (Hmsg & Hsender & (self & Hself & Hother) & Hbody) Hkerb.
    unfold MoiraBot.handleCommand.
    through_guards Hmsg Hsender Hself Hother Hbody.
    destruct sender; try reflexivity.
    now rewrite (Hkerb _ eq_refl).
Qed.

Lemma hello_reply_witness :
  HelloBot.handleCommand (session "@bot:example.org") "!room"
    (message "@:example.org" "m.text" "!hello there")
  = replyNotice (session "@bot:example.org") "!room"
      (message "@:example.org" "m.text" "!hello there") "Hello world!"
  /\ MoiraBot.handleCommand (userListing []) (session "@bot:example.org") "!room"
       (message "@jdoe:matrix.example.org" "m.text" "!hello")
     = replyNotice (session "@bot:example.org") "!room"
         (message "@jdoe:matrix.example.org" "m.text" "!hello") "Hello world!"
  /\ MoiraBot.handleCommand (userListing []) (session "@bot:example.org") "!room"
       (message "@:example.org" "m.text" "!hello")
     = ([], Throw TypeError).
Proof.
  destruct hello_reply as (Hhello & Hmoira & Hthrow).
  split; [|split].
  - apply (Hhello _ _ _ (Str "@:example.org") "!hello there"); [|reflexivity].
    repeat split. exists "@bot:example.org". split; reflexivity.
  - apply (Hmoira _ _ _ _ "@jdoe:matrix.example.org" "!hello" "jdoe");
      [|reflexivity|reflexivity].
    repeat split. exists "@bot:example.org". split; reflexivity.
  - apply (Hthrow _ _ _ _ (Str "@:example.org") "!hello").
    + repeat split. exists "@bot:example.org". split; reflexivity.
    + intros s [= <-]. reflexivity.
Defined.

(** C7 (as stated, refuted): a text message from [@:example.org] whose
    body is no command makes the handler throw, because the sender is
    taken apart before the body is looked at. *)
Lemma unmatched_body_from_unparsable_sender :
  ~ (forall moira client roomId event sender body,
        textFromOther client event sender body ->
        startsWith body "!hello" = false ->
        startsWith body "!myclasses" = false ->
        startsWith body "!myname" = false ->
        MoiraBot.handleCommand moira client roomId event = ([], Normal tt)).
Proof.
  intros H.
  specialize (H (userListing []) (session "@bot:example.org") "!room"
                (message "@:example.org" "m.text" "good morning")
                (Str "@:example.org") "good morning").
  assert (Hquiet : MoiraBot.handleCommand (userListing []) (session "@bot:example.org")
                     "!room" (message "@:example.org" "m.text" "good morning")
                   = ([], Normal tt)).
  { apply H; try reflexivity.
    repeat split. exists "@bot:example.org". split; reflexivity. }
  vm_compute in Hquiet. discriminate.
Qed.

(** C7 (amended): for a text message from another user whose sender is a
    string that [extractLocalpart] can take apart and whose body starts
    with none of [!hello], [!myclasses], [!myname], the handler sends
    nothing and completes without error. *)
Theorem unmatched_body_is_silent (moira : soapClient) (client : Chat.client)
  (roomId : string) (event : value) (sender body kerb : string) :
  textFromOther client event (Str sender) body ->
  extractLocalpart sender = Normal kerb ->
  startsWith body "!hello" = false ->
  startsWith body "!myclasses" = false ->
  startsWith body "!myname" = false ->
  MoiraBot.handleCommand moira client roomId event = ([], Normal tt).
Proof.
  intros (Hmsg & Hsender & (self & Hself & Hother) & Hbody) Hkerb Hhello Hclasses Hname.
  unfold MoiraBot.handleCommand.
  through_guards Hmsg Hsender Hself Hother Hbody.
  rewrite Hkerb, andThen_lift_Normal.
  now rewrite Hhello, Hclasses, Hname.
Qed.

Lemma unmatched_body_is_silent_witness :
  MoiraBot.handleCommand (userListing []) (session "@bot:example.org") "!room"
    (message "@jdoe:matrix.example.org" "m.text" "good morning")
  = ([], Normal tt).
Proof.
  apply (unmatched_body_is_silent _ _ _ _ "@jdoe:matrix.example.org" "good morning" "jdoe");
    try reflexivity.
  repeat split. exists "@bot:example.org". split; reflexivity.
Defined.

(** * Further properties of the adapter *)

Lemma apiCall_rejected (client : soapClient) (method : string)
  (args : list (string * value)) (e : exn) :
  client method args = Throw e -> apiCall client method args = Throw e.
Proof. intros H. unfold apiCall. rewrite H. reflexivity. Qed.

(** X1: the adapter catches nothing.  When the SOAP call itself is
    rejected, each query, and each method built on one, is rejected with
    the same error. *)
Theorem transport_failure_propagates (client : soapClient) (e : exn) :
  (forall listName recursiveSearch,
      client "getListMembership"
        [("listName", Str listName); ("recursiveSearch", Bool recursiveSearch);
         ("maxReturnCount", Num 0)] = Throw e ->
      getMembersOfList client listName recursiveSearch = Throw e)
  /\ (forall listName,
      client "getListMembership"
        [("listName", Str listName); ("recursiveSearch", Bool true);
         ("maxReturnCount", Num 0)] = Throw e ->
      getMITMembersOfList client listName = Throw e)
  /\ (forall listName,
      client "getListAttributes" [("listName", Str listName)] = Throw e ->
      getListAttributes client listName = Throw e)
  /\ (forall kerb,
      client "getUserAttributes" [("memberID", Str kerb)] = Throw e ->
      getUserAttributes client kerb = Throw e /\ getUserName client kerb = Throw e)
  /\ (forall kerb,
      client "getUserLists" [("memberID", Str kerb); ("memberType", Str "USER")] = Throw e ->
      getUserLists client kerb = Throw e /\ getUserClasses client kerb = Throw e).
Proof.
  repeat split.
  - intros listName recursiveSearch H. unfold getMembersOfList.
    now rewrite (apiCall_rejected _ _ _ _ H).
  - intros listName H. unfold getMITMembersOfList, getMembersOfList.
    now rewrite (apiCall_rejected _ _ _ _ H).
  - intros listName H. unfold getListAttributes.
    now rewrite (apiCall_rejected _ _ _ _ H).
  - unfold getUserAttributes. now rewrite (apiCall_rejected _ _ _ _ H).
  - unfold getUserName, getUserAttributes. now rewrite (apiCall_rejected _ _ _ _ H).
  - unfold getUserLists. now rewrite (apiCall_rejected _ _ _ _ H).
  - unfold getUserClasses, getUserLists. now rewrite (apiCall_rejected _ _ _ _ H).
Qed.

Lemma transport_failure_propagates_witness :
  getMITMembersOfList (unreachable (External "ECONNREFUSED")) "sipb"
  = Throw (External "ECONNREFUSED")
  /\ getUserName (unreachable (External "ECONNREFUSED")) "abc"
     = Throw (External "ECONNREFUSED")
  /\ getUserClasses (unreachable (External "ECONNREFUSED")) "abc"
     = Throw (External "ECONNREFUSED").
Proof.
  destruct (transport_failure_propagates (unreachable (External "ECONNREFUSED"))
              (External "ECONNREFUSED")) as (_ & Hmit & _ & Hname & Hclasses).
  split; [|split].
  - apply Hmit. reflexivity.
  - apply (Hname "abc"). reflexivity.
  - apply (Hclasses "abc"). reflexivity.
Defined.

(** X2: the two list-valued methods built on a query.  Without a
    top-level payload they raise [NoAPIResult]; with a payload that lacks
    the returned field they call [filter] on [undefined] and throw a
    [TypeError]; with an empty collection they return the empty list. *)
Theorem derived_lists_on_poor_responses (client : soapClient) :
  (forall listName (p : payload (list ListMember)),
      client "getListMembership"
        [("listName", Str listName); ("recursiveSearch", Bool true);
         ("maxReturnCount", Num 0)] = Normal p ->
      (absent p = true ->
       getMITMembersOfList client listName
       = Throw (NoAPIResult "getListMembership didn't return anything!"))
      /\ (forall fields, p = PObject fields ->
          (assoc "getListMembershipReturn" fields = None ->
           getMITMembersOfList client listName = Throw TypeError)
          /\ (assoc "getListMembershipReturn" fields = Some [] ->
              getMITMembersOfList client listName = Normal [])))
  /\ (forall kerb (p : payload (list string)),
      client "getUserLists" [("memberID", Str kerb); ("memberType", Str "USER")] = Normal p ->
      (absent p = true ->
       getUserClasses client kerb
       = Throw (NoAPIResult "getUserLists didn't return anything!"))
      /\ (forall fields, p = PObject fields ->
          (assoc "getUserListsReturn" fields = None ->
           getUserClasses client kerb = Throw TypeError)
          /\ (assoc "getUserListsReturn" fields = Some [] ->
              getUserClasses client kerb = Normal []))).
Proof.
  split.
  - intros listName p H. split; [|intros fields ->; split].
    + intros Hp. unfold getMITMembersOfList, getMembersOfList.
      now rewrite (apiCall_absent _ _ _ _ H Hp).
    + intros Hf. unfold getMITMembersOfList, getMembersOfList.
      rewrite (apiCall_present _ _ _ _ H). simpl. returned. now rewrite Hf.
    + intros Hf. unfold getMITMembersOfList, getMembersOfList.
      rewrite (apiCall_present _ _ _ _ H). simpl. returned. now rewrite Hf.
  - intros kerb p H. split; [|intros fields ->; split].
    + intros Hp. unfold getUserClasses, getUserLists.
      now rewrite (apiCall_absent _ _ _ _ H Hp).
    + intros Hf. unfold getUserClasses, getUserLists.
      rewrite (apiCall_present _ _ _ _ H). simpl. returned. now rewrite Hf.
    + intros Hf. unfold getUserClasses, getUserLists.
      rewrite (apiCall_present _ _ _ _ H). simpl. returned. now rewrite Hf.
Qed.

Lemma derived_lists_on_poor_responses_witness :
  getMITMembersOfList (answering "getListMembership" PNull) "sipb"
  = Throw (NoAPIResult "getListMembership didn't return anything!")
  /\ getMITMembersOfList (answering "getListMembership" (PObject [])) "sipb"
     = Throw TypeError
  /\ getUserClasses (userListing []) "abc" = Normal [].
Proof.
  split; [|split].
  - destruct (derived_lists_on_poor_responses (answering "getListMembership" PNull))
      as (H & _).
    apply (proj1 (H "sipb" PNull eq_refl)). reflexivity.
  - destruct (derived_lists_on_poor_responses (answering "getListMembership" (PObject [])))
      as (H & _).
    apply (proj1 (proj2 (H "sipb" (PObject []) eq_refl) [] eq_refl)). reflexivity.
  - destruct (derived_lists_on_poor_responses (userListing [])) as (_ & H).
    apply (proj2 (proj2 (H "abc" (PObject [("getUserListsReturn", [])]) eq_refl)
                    [("getUserListsReturn", [])] eq_refl)).
    reflexivity.
Defined.

Lemma kerbList_length (user : string) : (List.length (kerbList user) <= 1)%nat.
Proof. unfold kerbList. destruct (athenaKerb user); simpl; lia. Qed.

Lemma flat_map_kerbList_length (users : list string) :
  (List.length (flat_map kerbList users) <= List.length users)%nat.
Proof.
  induction users as [|user users IH]; simpl; [lia|].
  rewrite length_app. pose proof (kerbList_length user). lia.
Qed.

Lemma users_and_kerberos_length (allMembers : list ListMember) :
  (List.length (filter isUser allMembers) + List.length (filter isKerberos allMembers)
   = List.length (filter userOrKerberos allMembers))%nat.
Proof.
  induction allMembers as [|m l IH]; simpl; [reflexivity|].
  unfold userOrKerberos, isUser, isKerberos in *.
  destruct (type m); simpl; lia.
Qed.

(** X3: members of type LIST and STRING never reach the result:
    dropping them from the member list changes nothing, and the result
    has at most as many entries as there are USER and KERBEROS members. *)
Theorem mitMembers_ignores_lists_and_strings (allMembers : list ListMember) :
  mitMembers (filter userOrKerberos allMembers) = mitMembers allMembers
  /\ (List.length (mitMembers allMembers)
      <= List.length (filter userOrKerberos allMembers) <= List.length allMembers)%nat.
Proof.
  split; [|split].
  - rewrite !mitMembers_eq.
    rewrite (filter_narrower isUser userOrKerberos),
            (filter_narrower isKerberos userOrKerberos); [reflexivity| |].
    + intros m H. unfold userOrKerberos. rewrite H. apply orb_true_r.
    + intros m H. unfold userOrKerberos. now rewrite H.
  - rewrite mitMembers_eq, length_app, length_map, <- users_and_kerberos_length.
    pose proof (flat_map_kerbList_length (map member (filter isKerberos allMembers))) as H.
    rewrite length_map in H. lia.
  - apply filter_length_le.
Qed.

Lemma split_cons (a : ascii) (s : string) (c : ascii) :
  split (String a s) c
  = if Ascii.eqb a c then EmptyString :: split s c
    else match split s c with
         | field :: fields => String a field :: fields
         | [] => [String a EmptyString]
         end.
Proof. reflexivity. Qed.

(** The first field of a split holds no separator, and the rest of the
    split is the split of what follows the first separator. *)
Lemma split_cons_inv (s : string) (c : ascii) (f : string) (rest : list string) :
  split s c = f :: rest ->
  includes f (String c "") = false
  /\ ((rest = [] /\ s = f)
      \/ exists s', s = f ++ String c s' /\ split s' c = rest).
Proof.
  revert f rest. induction s as [|a s IH]; intros f rest H.
  - injection H as <- <-. split; [reflexivity | left; split; reflexivity].
  - rewrite split_cons in H. destruct (Ascii.eqb_spec a c) as [->|Hne].
    + injection H as <- <-. split; [reflexivity|].
      right. exists s. split; reflexivity.
    + destruct (split s c) as [|f' rest'] eqn:Hs.
      * exfalso. exact (split_not_nil s c Hs).
      * injection H as <- <-. destruct (IH f' rest' eq_refl) as [Hf Hcase]. split.
        -- rewrite includes_char_cons, Hf. apply Ascii.eqb_neq in Hne. now rewrite Hne.
        -- destruct Hcase as [[-> ->] | (s' & -> & Hs')].
           ++ left. split; reflexivity.
           ++ right. exists s'. split; [reflexivity | exact Hs'].
Qed.

Lemma split_second (s : string) (c : ascii) (f ext : string) (rest : list string) :
  split s c = f :: ext :: rest ->
  includes f (String c "") = false
  /\ exists tail, endsField c tail /\ s = f ++ String c (ext ++ tail).
Proof.
  intros H. destruct (split_cons_inv _ _ _ _ H) as [Hf [[Hnil _] | (s' & -> & Hs')]];
    [discriminate|].
  split; [exact Hf|].
  destruct (split_cons_inv _ _ _ _ Hs') as [_ [[_ ->] | (s'' & -> & _)]].
  - exists "". split; [now left | now rewrite append_empty_r].
  - exists (String c s''). split; [right; now exists s'' | reflexivity].
Qed.

Lemma split_two_fields (f ext tail : string) (c : ascii) :
  includes f (String c "") = false -> includes ext (String c "") = false ->
  endsField c tail ->
  exists rest, split (f ++ String c (ext ++ tail)) c = f :: ext :: rest.
Proof.
  intros Hf Hext Htail. rewrite (split_first _ _ _ Hf).
  destruct Htail as [->|[t ->]].
  - exists []. now rewrite append_empty_r, (split_single _ _ Hext).
  - exists (split t c). now rewrite (split_first _ _ _ Hext).
Qed.

Lemma athenaKerb_kept (user kerb : string) :
  athenaKerb user = Some kerb -> keptAs user kerb.
Proof.
  unfold athenaKerb, visitKerberos.
  destruct (includes user "/") eqn:Hslash.
  - destruct (split user "/") as [|k [|ext rest]] eqn:Hsplit; try discriminate.
    cbn [hd_error looseEqualsString].
    destruct (String.eqb_spec ext "root@ATHENA.MIT.EDU") as [->|]; [|discriminate].
    intros [= <-]. destruct (split_second _ _ _ _ _ Hsplit) as (Hk & tail & Htail & ->).
    left. split; [exact Hk|]. exists tail. split; [exact Htail | reflexivity].
  - destruct (split user "@") as [|k [|ext rest]] eqn:Hsplit; try discriminate.
    cbn [hd_error looseEqualsString].
    destruct (split_second _ _ _ _ _ Hsplit) as (Hk & tail & Htail & Huser).
    destruct (String.eqb_spec ext "ATHENA.MIT.EDU") as [->|].
    + intros [= <-]. right. repeat split; trivial.
      exists "ATHENA.MIT.EDU", tail. repeat split; trivial. now left.
    + destruct (String.eqb_spec ext "MIT.EDU") as [->|]; [|discriminate].
      intros [= <-]. right. repeat split; trivial.
      exists "MIT.EDU", tail. repeat split; trivial. right. now left.
Qed.

Lemma kept_athenaKerb (user kerb : string) :
  keptAs user kerb -> athenaKerb user = Some kerb.
Proof.
  unfold athenaKerb, visitKerberos.
  intros [(Hk & tail & Htail & ->) | (Hslash & Hk & realm & tail & Hrealm & Htail & ->)].
  - assert (Hin : includes (kerb ++ "/root@ATHENA.MIT.EDU" ++ tail) "/" = true).
    { rewrite includes_char_app.
      change ("/root@ATHENA.MIT.EDU" ++ tail) with (String "/" ("root@ATHENA.MIT.EDU" ++ tail)).
      rewrite includes_char_cons. simpl. now rewrite orb_true_r. }
    rewrite Hin.
    change (kerb ++ "/root@ATHENA.MIT.EDU" ++ tail)
      with (kerb ++ String "/" ("root@ATHENA.MIT.EDU" ++ tail)).
    destruct (split_two_fields kerb "root@ATHENA.MIT.EDU" tail "/" Hk eq_refl Htail)
      as [rest ->].
    reflexivity.
  - rewrite Hslash.
    assert (Hr : includes realm "@" = false
                 /\ (String.eqb realm "ATHENA.MIT.EDU" || String.eqb realm "MIT.EDU") = true).
    { destruct Hrealm as [<-|[<-|[]]]; split; reflexivity. }
    destruct Hr as [Hr Haccepted].
    change (kerb ++ "@" ++ realm ++ tail) with (kerb ++ String "@" (realm ++ tail)).
    destruct (split_two_fields kerb realm tail "@" Hk Hr Htail) as [rest ->].
    cbn [hd_error looseEqualsString]. rewrite Haccepted. reflexivity.
Qed.

(** X4: which KERBEROS members are kept, exactly.  A member is kept as
    [kerb] if and only if it starts with [kerb/root@ATHENA.MIT.EDU], or
    has no [/] and starts with [kerb@ATHENA.MIT.EDU] or [kerb@MIT.EDU],
    where the realm is followed by nothing or by a further separator:
    only the first two fields of the split are looked at, so text after a
    second [/] (or [@]) is ignored. *)
Theorem athenaKerb_exactly (user kerb : string) :
  athenaKerb user = Some kerb <-> keptAs user kerb.
Proof.
  split; [apply athenaKerb_kept | apply kept_athenaKerb].
Qed.

(** X5: KERBEROS members that are left out.  A member without [/] and
    [@] contributes nothing, and neither does [kerb/instance] for any
    instance other than [root@ATHENA.MIT.EDU]. *)
Theorem athenaKerb_left_out :
  (forall user, plainName user = true -> athenaKerb user = None)
  /\ (forall kerb instance,
         includes kerb "/" = false -> includes instance "/" = false ->
         instance <> "root@ATHENA.MIT.EDU" ->
         athenaKerb (kerb ++ "/" ++ instance) = None).
Proof.
  split.
  - intros user H. apply plainName_inv in H as [Hslash Hat].
    unfold athenaKerb, visitKerberos. rewrite Hslash, (split_single _ _ Hat). reflexivity.
  - intros kerb instance Hk Hi Hne. unfold athenaKerb, visitKerberos.
    assert (Hin : includes (kerb ++ "/" ++ instance) "/" = true).
    { rewrite includes_char_app. change ("/" ++ instance) with (String "/" instance).
      rewrite includes_char_cons. simpl. now rewrite orb_true_r. }
    rewrite Hin. change (kerb ++ "/" ++ instance) with (kerb ++ String "/" instance).
    rewrite (split_first _ _ _ Hk), (split_single _ _ Hi).
    cbn [hd_error looseEqualsString].
    apply String.eqb_neq in Hne. now rewrite Hne.
Qed.

Lemma athenaKerb_left_out_witness :
  athenaKerb "jdoe" = None
  /\ athenaKerb ("jdoe" ++ "/" ++ "admin@ATHENA.MIT.EDU") = None.
Proof.
  destruct athenaKerb_left_out as (Hplain & Hinstance).
  split.
  - apply Hplain. reflexivity.
  - apply Hinstance; [reflexivity | reflexivity | discriminate].
Defined.

Lemma athenaKerb_exactly_witness :
  athenaKerb "jdoe/root@ATHENA.MIT.EDU/extra" = Some "jdoe"
  /\ athenaKerb "jdoe@MIT.EDU@elsewhere" = Some "jdoe".
Proof.
  split.
  - apply (proj2 (athenaKerb_exactly "jdoe/root@ATHENA.MIT.EDU/extra" "jdoe")).
    left. split; [reflexivity|]. exists "/extra". split; [|reflexivity].
    right. now exists "extra".
  - apply (proj2 (athenaKerb_exactly "jdoe@MIT.EDU@elsewhere" "jdoe")).
    right. split; [reflexivity|]. split; [reflexivity|].
    exists "MIT.EDU", "@elsewhere". split; [right; now left|].
    split; [right; now exists "elsewhere" | reflexivity].
Defined.

(** ** [getUserName], further *)

Lemma replace_nil (pattern replacement : string) :
  replace "" pattern replacement
  = if String.prefix pattern "" then replacement ++ drop (String.length pattern) ""
    else "".
Proof. reflexivity. Qed.

Lemma includes_nil (needle : string) : includes "" needle = String.prefix needle "" || false.
Proof. reflexivity. Qed.

(** Without an occurrence of the pattern, [replace] returns its input. *)
Lemma replace_absent (s pattern replacement : string) :
  includes s pattern = false -> replace s pattern replacement = s.
Proof.
  induction s as [|c s IH]; intros H.
  - rewrite includes_nil in H. apply orb_false_iff in H as [H _].
    rewrite replace_nil, H. reflexivity.
  - rewrite includes_cons in H. apply orb_false_iff in H as [Hhere Hrest].
    rewrite replace_cons, Hhere, (IH Hrest). reflexivity.
Qed.

Lemma getUserName_body (client : soapClient) (kerb : string)
  (attributes : UserAttributes.t) :
  getUserAttributes client kerb = Normal (Some attributes) ->
  getUserName client kerb = Normal (replace (nameTemplate attributes) "  " " ").
Proof. intros H. unfold getUserName. rewrite H. reflexivity. Qed.

(** X6: when the three name fields, joined by single spaces, hold no
    double space (in particular with a middle name and fields without
    stray spaces), [getUserName] returns that string unchanged. *)
Theorem getUserName_without_double_space (client : soapClient) (kerb : string)
  (attributes : UserAttributes.t) :
  getUserAttributes client kerb = Normal (Some attributes) ->
  includes (nameTemplate attributes) "  " = false ->
  getUserName client kerb
  = Normal (UserAttributes.first attributes ++ " " ++ UserAttributes.middle attributes
            ++ " " ++ UserAttributes.last attributes).
Proof.
  intros H Hnone. rewrite (getUserName_body _ _ _ H), (replace_absent _ _ _ Hnone).
  reflexivity.
Qed.

Lemma getUserName_without_double_space_witness :
  getUserName (userRecords [named "Alyssa" "P" "Hacker"]) "aphacker"
  = Normal "Alyssa P Hacker".
Proof.
  apply (getUserName_without_double_space
           (userRecords [named "Alyssa" "P" "Hacker"]) "aphacker"
           (named "Alyssa" "P" "Hacker")); reflexivity.
Defined.

(** X7: [getUserName] collapses one double space only, the first one of
    the joined fields: if they read [pre ++ "  " ++ post] with no double
    space inside [pre], the result is [pre ++ " " ++ post], whatever
    double spaces [post] holds. *)
Theorem getUserName_first_double_space (client : soapClient) (kerb : string)
  (attributes : UserAttributes.t) (pre post : string) :
  getUserAttributes client kerb = Normal (Some attributes) ->
  nameTemplate attributes = pre ++ "  " ++ post ->
  includes pre "  " = false ->
  getUserName client kerb = Normal (pre ++ " " ++ post).
Proof.
  intros H Ht Hpre. rewrite (getUserName_body _ _ _ H), Ht, (replace_gap _ _ Hpre).
  reflexivity.
Qed.

Lemma getUserName_first_double_space_witness :
  getUserName (userRecords [named "" "" "Cher"]) "cher" = Normal " Cher"
  /\ getUserName (userRecords [named "Ben" "" "Bitdiddle  Jr"]) "ben"
     = Normal "Ben Bitdiddle  Jr".
Proof.
  split.
  - apply (getUserName_first_double_space
             (userRecords [named "" "" "Cher"]) "cher" (named "" "" "Cher") "" "Cher");
      reflexivity.
  - apply (getUserName_first_double_space
             (userRecords [named "Ben" "" "Bitdiddle  Jr"]) "ben"
             (named "Ben" "" "Bitdiddle  Jr") "Ben" "Bitdiddle  Jr");
      reflexivity.
Defined.

(** X8: [getUserName] on poor responses.  Without a top-level payload it
    raises [NoAPIResult]; when the returned field is missing, and also
    when the returned collection is empty (no such user), it throws a
    [TypeError]; otherwise it names the first record and ignores the
    others. *)
Theorem getUserName_on_poor_responses (client : soapClient) (kerb : string)
  (p : payload (list UserAttributes.t)) :
  client "getUserAttributes" [("memberID", Str kerb)] = Normal p ->
  (absent p = true ->
   getUserName client kerb
   = Throw (NoAPIResult "getUserAttributes didn't return anything!"))
  /\ (forall fields, p = PObject fields ->
      (assoc "getUserAttributesReturn" fields = None ->
       getUserName client kerb = Throw TypeError)
      /\ (assoc "getUserAttributesReturn" fields = Some [] ->
          getUserName client kerb = Throw TypeError)
      /\ (forall attributes others,
             assoc "getUserAttributesReturn" fields = Some (attributes :: others) ->
             getUserName client kerb = Normal (fullName attributes))).
Proof.
  intros H. split; [|intros fields ->; split; [|split]].
  - intros Hp. unfold getUserName, getUserAttributes.
    now rewrite (apiCall_absent _ _ _ _ H Hp).
  - intros Hf. unfold getUserName, getUserAttributes.
    rewrite (apiCall_present _ _ _ _ H). simpl. returned. now rewrite Hf.
  - intros Hf. unfold getUserName, getUserAttributes.
    rewrite (apiCall_present _ _ _ _ H). simpl. returned. now rewrite Hf.
  - intros attributes others Hf. unfold getUserName, getUserAttributes.
    rewrite (apiCall_present _ _ _ _ H). simpl. returned. now rewrite Hf.
Qed.

Lemma getUserName_on_poor_responses_witness :
  getUserName (userRecords []) "nobody" = Throw TypeError
  /\ getUserName (userRecords [named "Ben" "" "Bitdiddle"; named "Eva" "Lu" "Ator"]) "ben"
     = Normal "Ben Bitdiddle".
Proof.
  split.
  - apply (proj1 (proj2 (proj2 (getUserName_on_poor_responses
                                  (userRecords []) "nobody"
                                  (PObject [("getUserAttributesReturn", [])]) eq_refl)
                                [("getUserAttributesReturn", [])] eq_refl))).
    reflexivity.
  - apply (proj2 (proj2 (proj2 (getUserName_on_poor_responses
                                  (userRecords [named "Ben" "" "Bitdiddle";
                                                named "Eva" "Lu" "Ator"]) "ben"
                                  (PObject [("getUserAttributesReturn",
                                             [named "Ben" "" "Bitdiddle";
                                              named "Eva" "Lu" "Ator"])]) eq_refl)
                                [("getUserAttributesReturn",
                                  [named "Ben" "" "Bitdiddle"; named "Eva" "Lu" "Ator"])]
                                eq_refl))
             (named "Ben" "" "Bitdiddle") [named "Eva" "Lu" "Ator"]).
    reflexivity.
Defined.

(** ** [extractLocalpart], further *)

(** X9: for an identifier [@name:domain] on one line, with a non-empty
    name and a non-empty domain without [:], [extractLocalpart] returns
    the name, even when the name itself holds [@] or [:].  The group is
    greedy: with a port in the server name, as in [@jdoe:example.org:8448],
    what is returned runs up to the last [:], here [jdoe:example.org]. *)
Theorem extractLocalpart_of_identifier (name domain : string) :
  name <> "" -> domain <> "" -> includes domain ":" = false ->
  dotRun (name ++ ":" ++ domain) = name ++ ":" ++ domain ->
  extractLocalpart ("@" ++ name ++ ":" ++ domain) = Normal name.
Proof.
  intros Hname Hdomain Hcolon Hrun. unfold extractLocalpart.
  change ("@" ++ name ++ ":" ++ domain) with (String "@" (name ++ ":" ++ domain)).
  rewrite matchLocalpart_cons. unfold matchHere.
  rewrite Ascii.eqb_refl, Hrun.
  destruct name as [|c1 g]; [contradiction|].
  change (String c1 g ++ ":" ++ domain) with (String c1 (g ++ ":" ++ domain)).
  cbv iota. rewrite (lastColon_last _ _ Hcolon Hdomain). reflexivity.
Qed.

Lemma extractLocalpart_of_identifier_witness :
  extractLocalpart ("@" ++ "jdoe" ++ ":" ++ "matrix.example.org") = Normal "jdoe"
  /\ extractLocalpart ("@" ++ "jdoe:example.org" ++ ":" ++ "8448")
     = Normal "jdoe:example.org".
Proof.
  split.
  - apply extractLocalpart_of_identifier; [discriminate | discriminate | reflexivity..].
  - apply extractLocalpart_of_identifier; [discriminate | discriminate | reflexivity..].
Defined.

(** * Further properties of the command handlers *)

Lemma andThen_lift {A B} (c : completion A) (k : A -> task B) :
  andThen (lift c) k
  = match c with
    | Normal a => k a
    | Throw e => ([], Throw e)
    end.
Proof. destruct c; [apply andThen_lift_Normal | reflexivity]. Qed.

(** What the greeting-only handler does with a text message of another
    user. *)
Lemma HelloBot_dispatch (client : Chat.client) (roomId : string) (event sender : value)
  (body : string) :
  textFromOther client event sender body ->
  HelloBot.handleCommand client roomId event
  = if startsWith body "!hello" then replyNotice client roomId event "Hello world!"
    else done.
Proof.
  intros (Hmsg & Hsender & (self & Hself & Hother) & Hbody).
  unfold HelloBot.handleCommand.
  through_guards Hmsg Hsender Hself Hother Hbody.
  destruct (startsWith body "!hello"); reflexivity.
Qed.

(** What the handler with the directory commands does with it, once the
    sender is taken apart. *)
Lemma MoiraBot_dispatch (moira : soapClient) (client : Chat.client) (roomId : string)
  (event : value) (sender body kerb : string) :
  textFromOther client event (Str sender) body ->
  extractLocalpart sender = Normal kerb ->
  MoiraBot.handleCommand moira client roomId event
  = if startsWith body "!hello" then replyNotice client roomId event "Hello world!"
    else if startsWith body "!myclasses" then
      match getUserClasses moira kerb with
      | Normal classes =>
          replyNotice client roomId event (join (currentClasses classes) (String LF ""))
      | Throw e => ([], Throw e)
      end
    else if startsWith body "!myname" then
      match getUserName moira kerb with
      | Normal name => replyNotice client roomId event name
      | Throw e => ([], Throw e)
      end
    else done.
Proof.
  intros (Hmsg & Hsender & (self & Hself & Hother) & Hbody) Hkerb.
  unfold MoiraBot.handleCommand.
  through_guards Hmsg Hsender Hself Hother Hbody.
  rewrite Hkerb, andThen_lift_Normal.
  destruct (startsWith body "!hello"); [reflexivity|].
  destruct (startsWith body "!myclasses"); [now rewrite andThen_lift|].
  destruct (startsWith body "!myname"); [now rewrite andThen_lift | reflexivity].
Qed.

Lemma starts_with_literal (body literal : string) :
  startsWith body literal = true -> exists rest, body = literal ++ rest.
Proof. apply prefix_decompose. Qed.

Lemma prefixes_exclusive (body : string) (c c' : command) :
  startsWith body (prefixOf c) = true -> c' <> c ->
  startsWith body (prefixOf c') = false.
Proof.
  intros H Hne. destruct (starts_with_literal _ _ H) as [rest ->].
  destruct c, c'; try reflexivity; now contradiction Hne.
Qed.

Lemma command_eq_dec (c c' : command) : {c = c'} + {c <> c'}.
Proof. decide equality. Defined.

(** A dispatcher runs the command whose prefix the body has, wherever
    that command stands in its order of tests. *)
Lemma dispatchIn_runs (order : list command) (run : command -> task unit)
  (body : string) (c : command) :
  In c order -> startsWith body (prefixOf c) = true ->
  dispatchIn order run body = run c.
Proof.
  intros Hin Hc. induction order as [|c0 order IH]; [contradiction|].
  simpl. destruct (command_eq_dec c0 c) as [->|Hne].
  - now rewrite Hc.
  - rewrite (prefixes_exclusive _ _ _ Hc Hne). apply IH.
    destruct Hin as [Heq|Hin]; [now contradiction Hne | exact Hin].
Qed.

Lemma dispatchIn_nothing (order : list command) (run : command -> task unit)
  (body : string) :
  (forall c, startsWith body (prefixOf c) = false) ->
  dispatchIn order run body = done.
Proof.
  intros H. induction order as [|c0 order IH]; [reflexivity|].
  simpl. now rewrite (H c0).
Qed.

(** X10: the order in which [handleCommand] tests the three prefixes
    never decides which command runs.  For a text message of another
    user whose sender can be taken apart, the handler does what a
    dispatcher does that tests the prefixes of [!hello], [!myclasses] and
    [!myname] in any order whatever and runs the branch of the first one
    that fits. *)
Theorem dispatch_order_is_immaterial (moira : soapClient) (client : Chat.client)
  (roomId : string) (event : value) (sender body kerb : string) (order : list command) :
  textFromOther client event (Str sender) body ->
  extractLocalpart sender = Normal kerb ->
  (forall c, In c order) ->
  MoiraBot.handleCommand moira client roomId event
  = dispatchIn order (runCommand moira client roomId event kerb) body.
Proof.
  intros Htext Hkerb Hall.
  rewrite (MoiraBot_dispatch _ _ _ _ _ _ _ Htext Hkerb).
  destruct (startsWith body "!hello") eqn:Hhello.
  { now rewrite (dispatchIn_runs order _ body Hello (Hall Hello) Hhello). }
  destruct (startsWith body "!myclasses") eqn:Hclasses.
  { rewrite (dispatchIn_runs order _ body MyClasses (Hall MyClasses) Hclasses).
    unfold runCommand. now rewrite andThen_lift. }
  destruct (startsWith body "!myname") eqn:Hname.
  { rewrite (dispatchIn_runs order _ body MyName (Hall MyName) Hname).
    unfold runCommand. now rewrite andThen_lift. }
  rewrite dispatchIn_nothing; [reflexivity|].
  intros c. destruct c; assumption.
Qed.

Lemma dispatch_order_is_immaterial_witness :
  MoiraBot.handleCommand (userRecords [named "Ben" "" "Bitdiddle"])
    (session "@bot:example.org") "!room"
    (message "@ben:example.org" "m.text" "!myname")
  = dispatchIn [MyName; MyClasses; Hello]
      (runCommand (userRecords [named "Ben" "" "Bitdiddle"]) (session "@bot:example.org")
         "!room" (message "@ben:example.org" "m.text" "!myname") "ben")
      "!myname".
Proof.
  apply (dispatch_order_is_immaterial _ _ _ _ "@ben:example.org" "!myname" "ben"
           [MyName; MyClasses; Hello]).
  - repeat split. exists "@bot:example.org". split; reflexivity.
  - reflexivity.
  - intros c. destruct c; simpl; auto.
Defined.

(** Takes a handler apart along its awaits and tests. *)
Ltac handler_cases :=
  repeat match goal with
         | |- context [andThen (lift ?c) _] => rewrite (andThen_lift c)
         | |- context [match ?x with _ => _ end] => destruct x eqn:?
         end.

(** X11: whatever the event, the session and the directory, a handler
    sends at most one notice, and that notice goes to the room of the
    event, as a reply to that very event. *)
Theorem handlers_reply_at_most_once :
  (forall client roomId event,
      atMostOneReply roomId event (fst (HelloBot.handleCommand client roomId event)))
  /\ (forall moira client roomId event,
      atMostOneReply roomId event (fst (MoiraBot.handleCommand moira client roomId event))).
Proof.
  split.
  - intros client roomId event. unfold HelloBot.handleCommand, atMostOneReply.
    handler_cases; try (left; reflexivity); right; eexists; reflexivity.
  - intros moira client roomId event. unfold MoiraBot.handleCommand, atMostOneReply.
    handler_cases; try (left; reflexivity); right; eexists; reflexivity.
Qed.

(** X12: events the guards turn away end the handler quietly.  An event
    whose [content.msgtype] is not [m.text], and a text event whose
    sender is the bot itself, make both handlers return with nothing sent
    and no error, whatever the body and the shape of the sender. *)
Theorem ignored_events_end_quietly (moira : soapClient) (client : Chat.client)
  (roomId : string) (event : value) :
  (forall msgtype,
      msgtypeOf event = Normal msgtype ->
      strictEqualsString msgtype "m.text" = false ->
      HelloBot.handleCommand client roomId event = ([], Normal tt)
      /\ MoiraBot.handleCommand moira client roomId event = ([], Normal tt))
  /\ (forall self,
      msgtypeOf event = Normal (Str "m.text") ->
      get event "sender" = Normal (Str self) ->
      getUserId client = Normal self ->
      HelloBot.handleCommand client roomId event = ([], Normal tt)
      /\ MoiraBot.handleCommand moira client roomId event = ([], Normal tt)).
Proof.
  split.
  - intros msgtype Hmsg Hne.
    unfold HelloBot.handleCommand, MoiraBot.handleCommand.
    rewrite Hmsg, !andThen_lift_Normal, Hne. split; reflexivity.
  - intros self Hmsg Hsender Hself.
    unfold HelloBot.handleCommand, MoiraBot.handleCommand.
    rewrite Hmsg, !andThen_lift_Normal. cbn [strictEqualsString negb].
    rewrite String.eqb_refl. cbn [negb].
    rewrite Hsender, !andThen_lift_Normal, Hself, !andThen_lift_Normal.
    cbn [strictEqualsString]. rewrite String.eqb_refl. split; reflexivity.
Qed.

Lemma ignored_events_end_quietly_witness :
  MoiraBot.handleCommand (unreachable TypeError) (session "@bot:example.org") "!room"
    (message "nobody" "m.image" "!myname") = ([], Normal tt)
  /\ MoiraBot.handleCommand (unreachable TypeError) (session "@bot:example.org") "!room"
       (message "@bot:example.org" "m.text" "!myname") = ([], Normal tt).
Proof.
  destruct (ignored_events_end_quietly (unreachable TypeError) (session "@bot:example.org")
              "!room" (message "nobody" "m.image" "!myname")) as (H & _).
  destruct (ignored_events_end_quietly (unreachable TypeError) (session "@bot:example.org")
              "!room" (message "@bot:example.org" "m.text" "!myname")) as (_ & H').
  split.
  - apply (H (Str "m.image")); reflexivity.
  - apply (H' "@bot:example.org"); reflexivity.
Defined.

(** X13: [!myname] from another user whose identifier can be taken apart
    is answered with what [getUserName] returns for the localpart: the
    name fields of the first record the directory has for it. *)
Theorem myname_reply (moira : soapClient) (client : Chat.client) (roomId : string)
  (event : value) (sender body kerb : string) (attributes : UserAttributes.t) :
  textFromOther client event (Str sender) body ->
  extractLocalpart sender = Normal kerb ->
  startsWith body "!myname" = true ->
  getUserAttributes moira kerb = Normal (Some attributes) ->
  MoiraBot.handleCommand moira client roomId event
  = replyNotice client roomId event (fullName attributes).
Proof.
  intros Htext Hkerb Hcmd Hrecord.
  rewrite (MoiraBot_dispatch _ _ _ _ _ _ _ Htext Hkerb).
  destruct (starts_with_literal _ _ Hcmd) as [rest ->].
  change (startsWith ("!myname" ++ rest) "!hello") with false.
  change (startsWith ("!myname" ++ rest) "!myclasses") with false.
  cbv iota. rewrite Hcmd. unfold getUserName. rewrite Hrecord. reflexivity.
Qed.

Lemma myname_reply_witness :
  MoiraBot.handleCommand (userRecords [named "Ben" "" "Bitdiddle"])
    (session "@bot:example.org") "!room"
    (message "@ben:example.org" "m.text" "!myname")
  = replyNotice (session "@bot:example.org") "!room"
      (message "@ben:example.org" "m.text" "!myname") "Ben Bitdiddle".
Proof.
  apply (myname_reply _ _ _ _ "@ben:example.org" "!myname" "ben"
           (named "Ben" "" "Bitdiddle")); try reflexivity.
  repeat split. exists "@bot:example.org". split; reflexivity.
Defined.

(** X14: when the directory method behind a command fails, the handler
    fails with the same error and sends nothing: no error message reaches
    the room. *)
Theorem directory_failure_is_not_reported (moira : soapClient) (client : Chat.client)
  (roomId : string) (event : value) (sender body kerb : string) (e : exn) :
  textFromOther client event (Str sender) body ->
  extractLocalpart sender = Normal kerb ->
  (startsWith body "!myclasses" = true -> getUserClasses moira kerb = Throw e ->
   MoiraBot.handleCommand moira client roomId event = ([], Throw e))
  /\ (startsWith body "!myname" = true -> getUserName moira kerb = Throw e ->
      MoiraBot.handleCommand moira client roomId event = ([], Throw e)).
Proof.
  intros Htext Hkerb. rewrite (MoiraBot_dispatch _ _ _ _ _ _ _ Htext Hkerb). split.
  - intros Hcmd Hfail. destruct (starts_with_literal _ _ Hcmd) as [rest ->].
    change (startsWith ("!myclasses" ++ rest) "!hello") with false.
    cbv iota. now rewrite Hcmd, Hfail.
  - intros Hcmd Hfail. destruct (starts_with_literal _ _ Hcmd) as [rest ->].
    change (startsWith ("!myname" ++ rest) "!hello") with false.
    change (startsWith ("!myname" ++ rest) "!myclasses") with false.
    cbv iota. now rewrite Hcmd, Hfail.
Qed.

Lemma directory_failure_is_not_reported_witness :
  MoiraBot.handleCommand (userRecords []) (session "@bot:example.org") "!room"
    (message "@nobody:example.org" "m.text" "!myname") = ([], Throw TypeError)
  /\ MoiraBot.handleCommand (answering "getUserLists" PNull) (session "@bot:example.org")
       "!room" (message "@abc:example.org" "m.text" "!myclasses")
     = ([], Throw (NoAPIResult "getUserLists didn't return anything!")).
Proof.
  split.
  - apply (proj2 (directory_failure_is_not_reported (userRecords [])
                    (session "@bot:example.org") "!room"
                    (message "@nobody:example.org" "m.text" "!myname")
                    "@nobody:example.org" "!myname" "nobody" TypeError
                    (conj eq_refl (conj eq_refl
                       (conj (ex_intro _ "@bot:example.org" (conj eq_refl eq_refl)) eq_refl)))
                    eq_refl));
      reflexivity.
  - apply (proj1 (directory_failure_is_not_reported (answering "getUserLists" PNull)
                    (session "@bot:example.org") "!room"
                    (message "@abc:example.org" "m.text" "!myclasses")
                    "@abc:example.org" "!myclasses" "abc"
                    (NoAPIResult "getUserLists didn't return anything!")
                    (conj eq_refl (conj eq_refl
                       (conj (ex_intro _ "@bot:example.org" (conj eq_refl eq_refl)) eq_refl)))
                    eq_refl));
      reflexivity.
Defined.

Lemma filter_nothing {A} (p : A -> bool) (l : list A) :
  (forall x, In x l -> p x = false) -> filter p l = [].
Proof.
  induction l as [|x l IH]; intros H; simpl; [reflexivity|].
  rewrite (H x (or_introl eq_refl)). apply IH. intros y Hy. apply H. now right.
Qed.

(** X15: [!myclasses] is always answered once the directory has answered:
    when none of the user's lists starts with [canvas-2023], the reply is
    a notice with empty text. *)
Theorem myclasses_without_current_classes (moira : soapClient) (client : Chat.client)
  (roomId : string) (event : value) (sender body kerb : string) (lists : list string) :
  textFromOther client event (Str sender) body ->
  extractLocalpart sender = Normal kerb ->
  startsWith body "!myclasses" = true ->
  getUserLists moira kerb = Normal (Some lists) ->
  (forall name, In name lists -> startsWith name "canvas-2023" = false) ->
  MoiraBot.handleCommand moira client roomId event
  = replyNotice client roomId event "".
Proof.
  intros Htext Hkerb Hcmd Hlists Hnone.
  rewrite (MoiraBot_dispatch _ _ _ _ _ _ _ Htext Hkerb).
  destruct (starts_with_literal _ _ Hcmd) as [rest ->].
  change (startsWith ("!myclasses" ++ rest) "!hello") with false.
  cbv iota. rewrite Hcmd, (getUserClasses_body _ _ _ Hlists), currentClasses_of_classes.
  now rewrite (filter_nothing _ _ Hnone).
Qed.

Lemma myclasses_without_current_classes_witness :
  MoiraBot.handleCommand (userListing ["sipb-board"; "canvas-2022-6.006"])
    (session "@bot:example.org") "!room"
    (message "@abc:example.org" "m.text" "!myclasses")
  = replyNotice (session "@bot:example.org") "!room"
      (message "@abc:example.org" "m.text" "!myclasses") "".
Proof.
  apply (myclasses_without_current_classes _ _ _ _ "@abc:example.org" "!myclasses" "abc"
           ["sipb-board"; "canvas-2022-6.006"]); try reflexivity.
  - repeat split. exists "@bot:example.org". split; reflexivity.
  - intros name [<-|[<-|[]]]; reflexivity.
Defined.

(** X16: a text event of another user whose body is not a string.  The
    greeting-only handler returns quietly when the body is [undefined] or
    [null] and throws a [TypeError] for any other non-string; the handler
    with the directory commands throws a [TypeError] for every body that
    is not a string, also for a missing one. *)
Theorem bodies_that_are_not_strings (moira : soapClient) (client : Chat.client)
  (roomId : string) (event sender body : value) (self : string) :
  msgtypeOf event = Normal (Str "m.text") ->
  get event "sender" = Normal sender ->
  getUserId client = Normal self ->
  strictEqualsString sender self = false ->
  bodyOf event = Normal body ->
  (forall s, body <> Str s) ->
  HelloBot.handleCommand client roomId event
  = (if nullish body then ([], Normal tt) else ([], Throw TypeError))
  /\ MoiraBot.handleCommand moira client roomId event = ([], Throw TypeError).
Proof.
  intros Hmsg Hsender Hself Hother Hbody Hnot. split.
  - unfold HelloBot.handleCommand.
    through_guards Hmsg Hsender Hself Hother Hbody.
    destruct body; try reflexivity. exfalso. eapply Hnot. reflexivity.
  - unfold MoiraBot.handleCommand.
    through_guards Hmsg Hsender Hself Hother Hbody.
    rewrite andThen_lift.
    destruct sender; try reflexivity.
    unfold extractLocalpart. destruct (matchLocalpart s); [|reflexivity].
    destruct body; try reflexivity. exfalso. eapply Hnot. reflexivity.
Qed.

Lemma bodies_that_are_not_strings_witness :
  HelloBot.handleCommand (session "@bot:example.org") "!room"
    (bodiless "@abc:example.org" "m.text") = ([], Normal tt)
  /\ MoiraBot.handleCommand (userListing []) (session "@bot:example.org") "!room"
       (bodiless "@abc:example.org" "m.text") = ([], Throw TypeError).
Proof.
  apply (bodies_that_are_not_strings (userListing []) (session "@bot:example.org") "!room"
           (bodiless "@abc:example.org" "m.text") (Str "@abc:example.org") Undefined
           "@bot:example.org"); try reflexivity.
  intros s. discriminate.
Defined.

(** X17: the directory is consulted for [!myclasses] and [!myname] only.
    For an event whose body, if it is a string, starts with [!hello] or
    with neither directory command, the handler behaves the same with any
    two directories. *)
Theorem directory_only_for_its_commands (moira moira' : soapClient)
  (client : Chat.client) (roomId : string) (event : value) :
  (forall body, bodyOf event = Normal (Str body) ->
                startsWith body "!hello" = true
                \/ (startsWith body "!myclasses" = false
                    /\ startsWith body "!myname" = false)) ->
  MoiraBot.handleCommand moira client roomId event
  = MoiraBot.handleCommand moira' client roomId event.
Proof.
  intros H. unfold MoiraBot.handleCommand. rewrite ?andThen_lift.
  destruct (msgtypeOf event) as [msgtype|]; [|reflexivity].
  destruct (negb (strictEqualsString msgtype "m.text")); [reflexivity|].
  rewrite ?andThen_lift. destruct (get event "sender") as [sender|]; [|reflexivity].
  rewrite ?andThen_lift. destruct (getUserId client) as [self|]; [|reflexivity].
  destruct (strictEqualsString sender self); [reflexivity|].
  rewrite ?andThen_lift. destruct (bodyOf event) as [body|]; [|reflexivity].
  rewrite ?andThen_lift.
  destruct (match sender with Str s => extractLocalpart s | _ => Throw TypeError end);
    [|reflexivity].
  destruct body; try reflexivity.
  destruct (H s eq_refl) as [->|[-> ->]]; [reflexivity|].
  destruct (startsWith s "!hello"); reflexivity.
Qed.

Lemma directory_only_for_its_commands_witness :
  MoiraBot.handleCommand (unreachable TypeError) (session "@bot:example.org") "!room"
    (message "@abc:example.org" "m.text" "!hello")
  = MoiraBot.handleCommand (userListing []) (session "@bot:example.org") "!room"
      (message "@abc:example.org" "m.text" "!hello").
Proof.
  apply (directory_only_for_its_commands (unreachable TypeError) (userListing [])).
  intros body [= <-]. left. reflexivity.
Defined.

(** X18: the handler with the directory commands extends the
    greeting-only one.  The two agree on every event the guards turn
    away, and on every text message of another user whose sender can be
    taken apart and whose body is neither [!myclasses] nor [!myname]. *)
Theorem revisions_agree (moira : soapClient) (client : Chat.client) (roomId : string)
  (event : value) :
  (~ answerable "m.text" client event ->
   MoiraBot.handleCommand moira client roomId event
   = HelloBot.handleCommand client roomId event)
  /\ (forall sender body kerb,
      textFromOther client event (Str sender) body ->
      extractLocalpart sender = Normal kerb ->
      startsWith body "!myclasses" = false ->
      startsWith body "!myname" = false ->
      MoiraBot.handleCommand moira client roomId event
      = HelloBot.handleCommand client roomId event).
Proof.
  split.
  - intros Hno. unfold MoiraBot.handleCommand, HelloBot.handleCommand, answerable in *.
    rewrite ?andThen_lift.
    destruct (msgtypeOf event) as [msgtype|]; [|reflexivity].
    destruct (strictEqualsString msgtype "m.text") eqn:Hm; [|reflexivity].
    apply strictEqualsString_true in Hm as ->. cbn [negb].
    rewrite ?andThen_lift. destruct (get event "sender") as [sender|]; [|reflexivity].
    rewrite ?andThen_lift. destruct (getUserId client) as [self|]; [|reflexivity].
    destruct (strictEqualsString sender self) eqn:Hs; [reflexivity|].
    exfalso. apply Hno. split; [reflexivity|]. exists sender, self. now repeat split.
  - intros sender body kerb Htext Hkerb Hclasses Hname.
    rewrite (MoiraBot_dispatch _ _ _ _ _ _ _ Htext Hkerb),
            (HelloBot_dispatch _ _ _ _ _ Htext), Hclasses, Hname.
    reflexivity.
Qed.

Lemma revisions_agree_witness :
  MoiraBot.handleCommand (userListing []) (session "@bot:example.org") "!room"
    (message "@:example.org" "m.image" "!hello")
  = HelloBot.handleCommand (session "@bot:example.org") "!room"
      (message "@:example.org" "m.image" "!hello")
  /\ MoiraBot.handleCommand (userListing []) (session "@bot:example.org") "!room"
       (message "@abc:example.org" "m.text" "good morning")
     = HelloBot.handleCommand (session "@bot:example.org") "!room"
         (message "@abc:example.org" "m.text" "good morning").
Proof.
  split.
  - apply (proj1 (revisions_agree (userListing []) (session "@bot:example.org") "!room"
                    (message "@:example.org" "m.image" "!hello"))).
    intros [Hmsg _]. vm_compute in Hmsg. discriminate.
  - apply (proj2 (revisions_agree (userListing []) (session "@bot:example.org") "!room"
                    (message "@abc:example.org" "m.text" "good morning"))
             "@abc:example.org" "good morning" "abc"); try reflexivity.
    repeat split. exists "@bot:example.org". split; reflexivity.
Defined.

(** X19: the greeting-only handler never looks at the shape of the
    sender: any text message of another user whose body does not start
    with [!hello] ends it quietly, with nothing sent and no error. *)
Theorem greeter_ignores_other_bodies (client : Chat.client) (roomId : string)
  (event sender : value) (body : string) :
  textFromOther client event sender body ->
  startsWith body "!hello" = false ->
  HelloBot.handleCommand client roomId event = ([], Normal tt).
Proof.
  intros Htext Hcmd. now rewrite (HelloBot_dispatch _ _ _ _ _ Htext), Hcmd.
Qed.

Lemma greeter_ignores_other_bodies_witness :
  HelloBot.handleCommand (session "@bot:example.org") "!room"
    (message "@:example.org" "m.text" "good morning") = ([], Normal tt).
Proof.
  apply (greeter_ignores_other_bodies _ _ _ (Str "@:example.org") "good morning");
    [|reflexivity].
  repeat split. exists "@bot:example.org". split; reflexivity.
Defined.

(** X20: failures ahead of the dispatch.  A [null] or [undefined] event
    makes both handlers throw a [TypeError]; when the session cannot tell
    the bot's own identifier, a text event makes both handlers fail with
    the session's error; in either case nothing is sent. *)
Theorem failures_before_dispatch (moira : soapClient) (client : Chat.client)
  (roomId : string) (event : value) :
  (nullish event = true ->
   HelloBot.handleCommand client roomId event = ([], Throw TypeError)
   /\ MoiraBot.handleCommand moira client roomId event = ([], Throw TypeError))
  /\ (forall sender e,
      msgtypeOf event = Normal (Str "m.text") ->
      get event "sender" = Normal sender ->
      getUserId client = Throw e ->
      HelloBot.handleCommand client roomId event = ([], Throw e)
      /\ MoiraBot.handleCommand moira client roomId event = ([], Throw e)).
Proof.
  split.
  - intros Hnull. destruct event; try discriminate; split; reflexivity.
  - intros sender e Hmsg Hsender Hself.
    unfold HelloBot.handleCommand, MoiraBot.handleCommand.
    rewrite Hmsg, !andThen_lift_Normal. cbn [strictEqualsString negb].
    rewrite String.eqb_refl. cbn [negb].
    rewrite Hsender, !andThen_lift_Normal, Hself. split; reflexivity.
Qed.

Lemma failures_before_dispatch_witness :
  MoiraBot.handleCommand (userListing []) (session "@bot:example.org") "!room" Null
  = ([], Throw TypeError)
  /\ HelloBot.handleCommand
       {| getUserId := Throw (External "M_UNKNOWN_TOKEN");
          sendNotice := fun _ _ _ => Normal tt |}
       "!room" (message "@abc:example.org" "m.text" "!hello")
     = ([], Throw (External "M_UNKNOWN_TOKEN")).
Proof.
  split.
  - apply (proj1 (failures_before_dispatch (userListing []) (session "@bot:example.org")
                    "!room" Null)).
    reflexivity.
  - apply (proj2 (failures_before_dispatch (userListing [])
                    {| getUserId := Throw (External "M_UNKNOWN_TOKEN");
                       sendNotice := fun _ _ _ => Normal tt |}
                    "!room" (message "@abc:example.org" "m.text" "!hello"))
             (Str "@abc:example.org") (External "M_UNKNOWN_TOKEN"));
      reflexivity.
Defined.

(** ** [getMITMembersOfList], counted *)

Lemma kept_kerbs_length (allMembers : list ListMember) :
  List.length (flat_map kerbList (map member (filter isKerberos allMembers)))
  = List.length (filter keptMember allMembers).
Proof.
  induction allMembers as [|m l IH]; simpl; [reflexivity|].
  unfold keptMember at 1. destruct (isKerberos m); simpl; [|exact IH].
  rewrite length_app, IH. unfold kerbList.
  destruct (athenaKerb (member m)); reflexivity.
Qed.

(** X21: nothing is deduplicated.  The result has one entry for each USER
    member and one for each KERBEROS member that is kept, so a person
    listed both ways appears twice. *)
Theorem mitMembers_counts_every_member (allMembers : list ListMember) :
  List.length (mitMembers allMembers)
  = (List.length (filter isUser allMembers)
     + List.length (filter keptMember allMembers))%nat.
Proof.
  rewrite mitMembers_eq, length_app, length_map, kept_kerbs_length. reflexivity.
Qed.
